(** * BeWeatherReady: the hourly forecast pipeline

    A shallow embedding of [BeWeatherReady.py]: the helper functions
    [save_raw_data], [clean_data], [save_clean_data], [save_daily_report]
    and the callback [update_forecast] (fetch, clean, window, alerts,
    last-hour summary, report table).

    Conventions of the embedding
    - a pandas [float64] cell is a primitive binary64 [float]; a missing
      value is [nan].  A feed array that is [null] in every place makes an
      [object] column of [None]s: its cells are [nan] here too, and its
      dtype is kept beside the frame ([dtypes]), because [Series.diff()]
      cannot subtract two [None]s;
    - a pandas [Timestamp] (dtype [datetime64[ns]]) is the [Z] number of
      nanoseconds since 1970-01-01T00:00 of the naive local wall clock;
    - a Python [date] is its day number since 1970-01-01;
    - a [DataFrame] is the list of its rows, in positional order;
    - [datetime.now()] is an explicit reading of the wall clock, the
      snapshot directories are a finite map from path to file content;
    - the numbers typed into the page arrive as binary64 thresholds and
      a whole [alert_start_hour]; a [Time] is never missing ([NaT]);
    - pandas is one that still has [fillna(method=...)], that is, a
      release before 3.0. *)

From Stdlib Require Import ZArith Floats Lia Sorted Ascii String.
From stdpp Require Import gmap strings list sorting.

Local Open Scope Z_scope.
Local Set Warnings "-inexact-float".

(** ** Wall clock: Python [datetime] and pandas [Timestamp] *)

Module Clock.

(** A naive [datetime.datetime] value. *)
Record datetime : Type := mk_datetime {
  year : Z; month : Z; day : Z;
  hour : Z; minute : Z; second : Z; microsecond : Z
}.

(** The values [datetime.now()] can return on a four-digit year. *)
Definition valid (d : datetime) : Prop :=
  1000 <= year d <= 9999 /\ 1 <= month d <= 12 /\ 1 <= day d <= 31 /\
  0 <= hour d <= 23 /\ 0 <= minute d <= 59 /\ 0 <= second d <= 59 /\
  0 <= microsecond d <= 999999.

Definition ns_per_hour : Z := 3600 * 1000000000.
Definition ns_per_day : Z := 24 * ns_per_hour.

(** Day number of the proleptic Gregorian date [y-m-d], 1970-01-01 = 0. *)
Definition days_from_civil (y m d : Z) : Z :=
  let y' := if m <=? 2 then y - 1 else y in
  let era := y' / 400 in
  let yoe := y' - era * 400 in
  let mp := (m + 9) mod 12 in
  let doy := (153 * mp + 2) / 5 + d - 1 in
  let doe := yoe * 365 + yoe / 4 - yoe / 100 + doy in
  era * 146097 + doe - 719468.

(** [d.date()] *)
Definition date (d : datetime) : Z :=
  days_from_civil (year d) (month d) (day d).

(** The [Timestamp] a [datetime] is converted to when it is compared
    with a [datetime64[ns]] column. *)
Definition to_Timestamp (d : datetime) : Z :=
  date d * ns_per_day
  + ((hour d * 60 + minute d) * 60 + second d) * 1000000000
  + microsecond d * 1000.

(** [Series.dt.date] and [Series.dt.hour] on one [Timestamp]. *)
Definition dt_date (t : Z) : Z := t / ns_per_day.
Definition dt_hour (t : Z) : Z := (t / ns_per_hour) mod 24.

(** *** [strftime] *)

Definition digit (n : Z) : ascii :=
  ascii_of_nat (48 + Z.to_nat (n mod 10)).

Definition digits2 (n : Z) : string :=
  String (digit (n / 10)) (String (digit n) EmptyString).

Definition digits4 (n : Z) : string :=
  String (digit (n / 1000)) (String (digit (n / 100)) (digits2 n)).

(** [d.strftime("%Y%m%d")] *)
Definition strftime_Ymd (d : datetime) : string :=
  digits4 (year d) +:+ digits2 (month d) +:+ digits2 (day d).

(** [d.strftime("%Y%m%d_%H%M%S")] *)
Definition strftime_Ymd_HMS (d : datetime) : string :=
  strftime_Ymd d +:+ "_" +:+
  digits2 (hour d) +:+ digits2 (minute d) +:+ digits2 (second d).

End Clock.

(** ** Data frames *)

(** One row of the frame built from the feed: columns [Time],
    [temperature], [wind_speed], [humidity], [precipitation]. *)
Record Row : Type := mk_Row {
  Time : Z;
  temperature : float;
  wind_speed : float;
  humidity : float;
  precipitation : float
}.

(** The four numeric columns of the frame. *)
Inductive Column : Type :=
  | col_temperature | col_wind_speed | col_humidity | col_precipitation.

Definition cell (c : Column) : Row -> float :=
  match c with
  | col_temperature => temperature
  | col_wind_speed => wind_speed
  | col_humidity => humidity
  | col_precipitation => precipitation
  end.

(** The dtype [pd.DataFrame] gives a numeric column of the feed:
    [object] when every value of the array is [None] (an empty array
    too), [float64] as soon as one is a number.  Dropping rows and
    forward fill keep it. *)
Inductive Dtype : Type := float64 | object.

Definition dtype_of (col : list float) : Dtype :=
  if forallb is_nan col then object else float64.

Definition dtypes (df : list Row) (c : Column) : Dtype :=
  dtype_of (map (cell c) df).

(** One row of [df_24h]: the same columns and [temperature_F]. *)
Record Row24 : Type := mk_Row24 {
  obs :> Row;
  temperature_F : float
}.

(** ** [clean_data] *)

(** [df.drop_duplicates(subset=['Time'])]: a row is dropped when its
    [Time] was seen in an earlier row; the survivors keep their order. *)
Fixpoint drop_duplicates_from (seen : gset Z) (df : list Row) : list Row :=
  match df with
  | [] => []
  | r :: rest =>
      if decide (Time r ∈ seen) then drop_duplicates_from seen rest
      else r :: drop_duplicates_from ({[Time r]} ∪ seen) rest
  end.

Definition drop_duplicates (df : list Row) : list Row :=
  drop_duplicates_from ∅ df.

(** Forward fill of one cell from the cell above it. *)
Definition fill (above x : float) : float :=
  if is_nan x then above else x.

Definition ffill_row (above r : Row) : Row :=
  {| Time := Time r;
     temperature := fill (temperature above) (temperature r);
     wind_speed := fill (wind_speed above) (wind_speed r);
     humidity := fill (humidity above) (humidity r);
     precipitation := fill (precipitation above) (precipitation r) |}.

Fixpoint ffill_below (above : Row) (df : list Row) : list Row :=
  match df with
  | [] => []
  | r :: rest =>
      let r' := ffill_row above r in r' :: ffill_below r' rest
  end.

(** [df.fillna(method='ffill')]: every missing cell takes the last valid
    value above it in its column; the first row has nothing above it. *)
Definition ffill (df : list Row) : list Row :=
  match df with
  | [] => []
  | r :: rest => r :: ffill_below r rest
  end.

Definition clean_data (df : list Row) : list Row :=
  let df_clean := drop_duplicates df in
  ffill df_clean.

(** ** Snapshot files *)

(** What [DataFrame.to_csv(filepath, index=False)] leaves in a file: the
    column labels and the rows of the frame written. *)
Record TableRow : Type := mk_TableRow {
  cell_Time : string;
  cell_temp : float;
  cell_wind : float;
  cell_humidity : float;
  cell_precip : float
}.

Record Table : Type := mk_Table {
  columns : list string;
  body : list TableRow
}.

Inductive csv : Type :=
  | csv_frame (df : list Row)
  | csv_table (t : Table).

(** The files under the working directory, by path. *)
Abbreviation FS := (gmap string csv).

(** [df.to_csv(filepath, index=False)] opens [filepath] for writing: the
    file is created, or truncated and replaced when it exists. *)
Definition to_csv (filepath : string) (content : csv) (fs : FS) : FS :=
  <[filepath := content]> fs.

Definition RAW_DATA_DIR : string := "raw_weather_data".
Definition CLEAN_DATA_DIR : string := "cleaned_weather_data".
Definition REPORT_DIR : string := "weather_reports".

Definition starts_with_sep (s : string) : bool :=
  match s with
  | String c _ => Ascii.eqb c "/"
  | EmptyString => false
  end.

Fixpoint ends_with_sep (s : string) : bool :=
  match s with
  | EmptyString => false
  | String c EmptyString => Ascii.eqb c "/"
  | String _ rest => ends_with_sep rest
  end.

(** [os.path.join(a, b)] (posix): an absolute [b] discards [a]. *)
Definition os_path_join (a b : string) : string :=
  if starts_with_sep b then b
  else if String.eqb a "" || ends_with_sep a then a +:+ b
  else a +:+ "/" +:+ b.

(** The paths the three [save_*] helpers write to. *)
Definition raw_path (now : Clock.datetime) (city_upper : string) : string :=
  let timestamp := Clock.strftime_Ymd_HMS now in
  os_path_join RAW_DATA_DIR (city_upper +:+ "_raw_" +:+ timestamp +:+ ".csv").

Definition clean_path (now : Clock.datetime) (city_upper : string) : string :=
  let timestamp := Clock.strftime_Ymd_HMS now in
  os_path_join CLEAN_DATA_DIR
    (city_upper +:+ "_cleaned_" +:+ timestamp +:+ ".csv").

Definition report_path (now : Clock.datetime) (city_upper : string) : string :=
  let date_str := Clock.strftime_Ymd now in
  os_path_join REPORT_DIR
    (city_upper +:+ "_hourly_report_" +:+ date_str +:+ ".csv").

Definition save_raw_data (now : Clock.datetime) (city_upper : string)
    (df : list Row) (fs : FS) : FS :=
  let filepath := raw_path now city_upper in
  to_csv filepath (csv_frame df) fs.

Definition save_clean_data (now : Clock.datetime) (city_upper : string)
    (df_clean : list Row) (fs : FS) : FS :=
  let filepath := clean_path now city_upper in
  to_csv filepath (csv_frame df_clean) fs.

Definition save_daily_report (now : Clock.datetime) (city_upper : string)
    (df : Table) (fs : FS) : FS :=
  let filepath := report_path now city_upper in
  to_csv filepath (csv_table df) fs.

(** ** The hourly feed *)

Module Feed.

(** The query part of the forecast URL. *)
Record Request : Type := mk_Request {
  latitude : float;
  longitude : float;
  past_days : option Z;
  forecast_days : option Z
}.

(** [data["hourly"]], with the [time] strings already read by
    [pd.to_datetime]. *)
Record Hourly : Type := mk_Hourly {
  time : list Z;
  temperature_2m : list float;
  wind_speed_10m : list float;
  relative_humidity_2m : list float;
  precipitation : list float
}.

End Feed.

Fixpoint zip_rows (ts : list Z) (c1 c2 c3 c4 : list float) : list Row :=
  match ts, c1, c2, c3, c4 with
  | t :: ts, a :: c1, b :: c2, c :: c3, d :: c4 =>
      mk_Row t a b c d :: zip_rows ts c1 c2 c3 c4
  | _, _, _, _, _ => []
  end.

(** [pd.DataFrame({...})] of the five arrays: [None] is the [ValueError]
    raised when they do not all have the same length. *)
Definition DataFrame (h : Feed.Hourly) : option (list Row) :=
  let n := length (Feed.time h) in
  if (length (Feed.temperature_2m h) =? n)%nat
     && (length (Feed.wind_speed_10m h) =? n)%nat
     && (length (Feed.relative_humidity_2m h) =? n)%nat
     && (length (Feed.precipitation h) =? n)%nat
  then Some (zip_rows (Feed.time h) (Feed.temperature_2m h)
               (Feed.wind_speed_10m h) (Feed.relative_humidity_2m h)
               (Feed.precipitation h))
  else None.

Definition CITIES : gmap string (float * float) :=
  list_to_map
    [ ("NEW YORK", (40.7128, -74.0060)%float);
      ("LONDON", (51.5072, -0.1276)%float);
      ("TOKYO", (35.6895, 139.6917)%float);
      ("BERLIN", (52.5200, 13.4050)%float);
      ("SYDNEY", (-33.8688, 151.2093)%float);
      ("MUMBAI", (19.0760, 72.8777)%float);
      ("SAO PAULO", (-23.5505, -46.6333)%float);
      ("CAPE TOWN", (-33.9249, 18.4241)%float) ].

(** ** Windowing *)

(** The row of [df_24h] made from a row of the cleaned frame:
    [df_24h["temperature_F"] = df_24h["temperature"] * 9/5 + 32]. *)
Definition in_24h (r : Row) : Row24 :=
  mk_Row24 r (temperature r * 9 / 5 + 32)%float.

(** [df_clean[df_clean["Time"].dt.date == target_date].copy()] followed
    by the new column [temperature_F]. *)
Definition select_date (target_date : Z) (df_clean : list Row) : list Row24 :=
  let df_24h :=
    List.filter (fun r => Clock.dt_date (Time r) =? target_date) df_clean in
  map in_24h df_24h.

(** [if alert_start_hour is not None:
       df_24h = df_24h[df_24h["Time"].dt.hour > alert_start_hour]] *)
Definition after_start_hour (alert_start_hour : option Z)
    (df_24h : list Row24) : list Row24 :=
  match alert_start_hour with
  | Some h => List.filter (fun r : Row24 => Clock.dt_hour (Time r) >? h) df_24h
  | None => df_24h
  end.

Definition window (target_date : Z) (alert_start_hour : option Z)
    (df_clean : list Row) : list Row24 :=
  after_start_hour alert_start_hour (select_date target_date df_clean).

(** ** Alerts *)

Inductive AlertKind : Type :=
  | MaxTemp | MinTemp | MaxWind | MinHumidity | Precip.

(** What one alert line reports: which threshold, the value of the row
    and its [Time]. *)
Record AlertEvent : Type := mk_AlertEvent {
  metric : AlertKind;
  observed_value : float;
  timestamp : Z
}.

Record Thresholds : Type := mk_Thresholds {
  max_temp : option float;
  min_temp : option float;
  max_wind : option float;
  min_humidity : option float;
  precip_threshold : option float
}.

(** One [alerts += [... for row in df_24h[mask].itertuples()]]. *)
Definition scan (k : AlertKind) (col : Row24 -> float) (mask : float -> bool)
    (df_24h : list Row24) : list AlertEvent :=
  map (fun row => mk_AlertEvent k (col row) (Time row))
      (List.filter (fun row => mask (col row)) df_24h).

Definition alert_events (th : Thresholds) (df_24h : list Row24)
    : list AlertEvent :=
  let alerts := [] in
  let alerts :=
    match max_temp th with
    | Some m => alerts ++ scan MaxTemp temperature (fun x => m <? x)%float df_24h
    | None => alerts
    end in
  let alerts :=
    match min_temp th with
    | Some m => alerts ++ scan MinTemp temperature (fun x => x <? m)%float df_24h
    | None => alerts
    end in
  let alerts :=
    match max_wind th with
    | Some m => alerts ++ scan MaxWind wind_speed (fun x => m <? x)%float df_24h
    | None => alerts
    end in
  let alerts :=
    match min_humidity th with
    | Some m => alerts ++ scan MinHumidity humidity (fun x => x <? m)%float df_24h
    | None => alerts
    end in
  let alerts :=
    match precip_threshold th with
    | Some m => alerts ++ scan Precip precipitation (fun x => m <? x)%float df_24h
    | None => alerts
    end in
  alerts.

(** ** Exceptions *)

Inductive Error : Type :=
  | KeyError        (* a dictionary lookup that misses *)
  | ValueError      (* [strptime], [pd.DataFrame] *)
  | TypeError       (* [None - None] in [Series.diff()] *)
  | RequestError.   (* [requests.get], [response.json], [data["hourly"]] *)

(** ** Last-hour summary *)

Fixpoint diff_below (above : float) (col : list float) : list float :=
  match col with
  | [] => []
  | x :: rest => (x - above)%float :: diff_below x rest
  end.

(** The values of [Series.diff()]: each value minus the one above it;
    nothing is above the first. *)
Definition diff_values (col : list float) : list float :=
  match col with
  | [] => []
  | x :: rest => nan :: diff_below x rest
  end.

(** [Series.diff()].  On an [object] column every cell is [None], and
    with two rows or more the first subtraction [None - None] raises
    [TypeError]; with fewer rows nothing is subtracted. *)
Definition diff (dtype : Dtype) (col : list float) : Error + list float :=
  match dtype, col with
  | object, _ :: _ :: _ => inl TypeError
  | _, _ => inr (diff_values col)
  end.

(** One step of a maximum that skips missing values. *)
Definition max_step (acc x : float) : float :=
  if is_nan x then acc
  else if is_nan acc then x
  else if (acc <? x)%float then x else acc.

(** [Series.max()] (skipna): the greatest valid value, [nan] when the
    column has none. *)
Definition Series_max (col : list float) : float :=
  fold_left max_step col nan.

Fixpoint idxmax_from (best : option (string * float))
    (s : list (string * float)) : option string :=
  match s with
  | [] => fst <$> best
  | (label, v) :: rest =>
      if is_nan v then idxmax_from best rest
      else match best with
           | None => idxmax_from (Some (label, v)) rest
           | Some (_, b) =>
               if (b <? v)%float then idxmax_from (Some (label, v)) rest
               else idxmax_from best rest
           end
  end.

(** [Series.idxmax()] (skipna, pandas before 3.0): the label of the first
    occurrence of the greatest valid value; [None] is the [nan] returned
    when every value is missing. *)
Definition idxmax (s : list (string * float)) : option string :=
  idxmax_from None s.

(** Truth value of a float in a condition: false for a zero only. *)
Definition truthy (v : float) : bool := negb (v =? 0)%float.

(** ** What the callback hands to the page *)

Record Trace : Type := mk_Trace {
  trace_name : string;
  trace_x : list Z;
  trace_y : list float
}.

Record Figure : Type := mk_Figure {
  traces : list Trace;
  layout_title : option string;
  xaxis_title : option string;
  yaxis_title : option string
}.

Record Card : Type := mk_Card {
  card_icon : string;
  card_title : string;
  card_text : string
}.

Record Outputs : Type := mk_Outputs {
  fig : Figure;
  graph_style : string;
  icons_div : list Card;
  alert_message : string;
  alert_displayed : bool;
  summary_text : string;
  table : Table
}.

Inductive Outcome : Type :=
  | no_update
  | raised (e : Error) (fs : FS)
  | returned (out : Outputs) (fs : FS).

(** [needle in s] on strings. *)
Fixpoint contains (needle s : string) : bool :=
  String.prefix needle s
  || match s with
     | EmptyString => false
     | String _ rest => contains needle rest
     end.

(** [sep.join(lines)] *)
Fixpoint join (sep : string) (lines : list string) : string :=
  match lines with
  | [] => ""
  | [l] => l
  | l :: rest => l +:+ sep +:+ join sep rest
  end.

(** The inputs and states of the callback, in the order of its
    parameters; [triggered] holds the [prop_id]s of [ctx.triggered]. *)
Record Args : Type := mk_Args {
  triggered : list string;
  n_clicks : option Z;
  selected_date : option string;
  visual_mode : string;
  city : option string;
  thresholds : Thresholds;
  temp_unit : string;
  detailed_feature : string;
  alert_start_hour : option Z
}.

(** Library functions the callback relies on and this development takes
    as given: string case mapping, date parsing, the text forms of dates,
    timestamps and floats, and the column reductions [mean] and [sum]. *)
Record Lib : Type := mk_Lib {
  str_upper : string -> string;
  str_title : string -> string;
  strptime_Ymd : string -> option Z;
  str_date : Z -> string;
  str_Timestamp : Z -> string;
  strftime_Ymd_HM : Z -> string;
  str_float : float -> string;
  format_1f : float -> string;
  format_2f : float -> string;
  Series_mean : list float -> float;
  Series_sum : list float -> float
}.

Definition newline : string := String (ascii_of_nat 10) EmptyString.

(** [df_24h[name]] for a numeric column. *)
Definition column (name : Row -> float) (df_24h : list Row24) : list float :=
  map (fun r : Row24 => name r) df_24h.

(** The order [sort_values("Time")] sorts by. *)
Definition Time_le (a b : Row24) : Prop := Time a <= Time b.

#[global] Instance Time_le_dec : RelDecision Time_le :=
  fun a b => decide (Time a <= Time b).

Section Callback.

Context (py : Lib).

(** The f-string of one alert line. *)
Definition render_alert (e : AlertEvent) : string :=
  match metric e with
  | MaxTemp =>
      "🔥 Temp " +:+ str_float py (observed_value e) +:+ "°C at "
      +:+ str_Timestamp py (timestamp e)
  | MinTemp =>
      "❄️ Temp " +:+ str_float py (observed_value e) +:+ "°C at "
      +:+ str_Timestamp py (timestamp e)
  | MaxWind =>
      "🌬️ Wind " +:+ str_float py (observed_value e) +:+ " km/h at "
      +:+ str_Timestamp py (timestamp e)
  | MinHumidity =>
      "💧 Humidity " +:+ str_float py (observed_value e) +:+ "% at "
      +:+ str_Timestamp py (timestamp e)
  | Precip =>
      "🌧️ Precip " +:+ str_float py (observed_value e) +:+ " mm at "
      +:+ str_Timestamp py (timestamp e)
  end.

(** The list [alerts] of the callback. *)
Definition alerts (th : Thresholds) (df_24h : list Row24) : list string :=
  map render_alert (alert_events th df_24h).

(** The part of [df_24h] the summary looks at:
    [df_24h[df_24h["Time"] >= last_hour].sort_values("Time")].  The sort
    is stable here; pandas' default is not, which shows only on rows
    with equal [Time]. *)
Definition last_hour_frame (now : Clock.datetime) (df_24h : list Row24)
    : list Row24 :=
  let last_hour := Clock.to_Timestamp now - Clock.ns_per_hour in
  let df_last_hour :=
    List.filter (fun r : Row24 => last_hour <=? Time r) df_24h in
  merge_sort Time_le df_last_hour.

(** One of the new columns [temp_diff], [wind_diff], [humidity_diff]:
    [df_last_hour[name].diff().abs()]. *)
Definition abs_diff (dtype : Dtype) (name : Row -> float)
    (df_last_hour : list Row24) : Error + list float :=
  match diff dtype (column name df_last_hour) with
  | inl e => inl e
  | inr d => inr (map abs d)
  end.

(** [df_last_hour[["temp_diff", "wind_diff", "humidity_diff"]].max()]:
    a series indexed by the three column labels. *)
Definition max_change (temp_diff wind_diff humidity_diff : list float)
    : list (string * float) :=
  [ ("temp_diff", Series_max temp_diff);
    ("wind_diff", Series_max wind_diff);
    ("humidity_diff", Series_max humidity_diff) ].

Definition no_significant_changes : string :=
  "No significant changes in last hour.".

(** From the reduced series to the text of the summary. *)
Definition summary_of (max_change : list (string * float)) : string :=
  let biggest_change_metric := idxmax max_change in
  let biggest_change_value := Series_max (map snd max_change) in
  let summary_text := no_significant_changes in
  if truthy biggest_change_value && (0 <? biggest_change_value)%float then
    if bool_decide (biggest_change_metric = Some "temp_diff") then
      "Temperature changed by " +:+ format_1f py biggest_change_value
      +:+ " °C in last hour."
    else if bool_decide (biggest_change_metric = Some "wind_diff") then
      "Wind Speed changed by " +:+ format_2f py biggest_change_value
      +:+ " km/h in last hour."
    else if bool_decide (biggest_change_metric = Some "humidity_diff") then
      "Humidity changed by " +:+ format_2f py biggest_change_value
      +:+ "% in last hour."
    else summary_text
  else summary_text.

(** The summary widget, on the frame [df_24h] whose columns have the
    dtypes [dtype]. *)
Definition summary (dtype : Column -> Dtype) (now : Clock.datetime)
    (df_24h : list Row24) : Error + string :=
  let df_last_hour := last_hour_frame now df_24h in
  match abs_diff (dtype col_temperature) temperature df_last_hour with
  | inl e => inl e
  | inr temp_diff =>
  match abs_diff (dtype col_wind_speed) wind_speed df_last_hour with
  | inl e => inl e
  | inr wind_diff =>
  match abs_diff (dtype col_humidity) humidity df_last_hour with
  | inl e => inl e
  | inr humidity_diff =>
  inr (summary_of (max_change temp_diff wind_diff humidity_diff))
  end end end.

(** The hourly table [df_table]. *)
Definition report_table (temp_unit : string) (df_24h : list Row24) : Table :=
  if String.eqb temp_unit "C" then
    {| columns :=
         ["Time"; "Temp (°C)"; "Wind (km/h)"; "Humidity (%)"; "Precip (mm)"];
       body :=
         map (fun r : Row24 =>
                mk_TableRow (strftime_Ymd_HM py (Time r)) (temperature r)
                  (wind_speed r) (humidity r) (precipitation r)) df_24h |}
  else
    {| columns :=
         ["Time"; "Temp (°F)"; "Wind (km/h)"; "Humidity (%)"; "Precip (mm)"];
       body :=
         map (fun r : Row24 =>
                mk_TableRow (strftime_Ymd_HM py (Time r))
                  (temperature r * 9 / 5 + 32)%float
                  (wind_speed r) (humidity r) (precipitation r)) df_24h |}.

(** *** Icon cards and figure *)

Definition icon_map (df_24h : list Row24) : gmap string string :=
  let mean_temp := Series_mean py (column temperature df_24h) in
  let mean_precip := Series_mean py (column precipitation df_24h) in
  list_to_map
    [ ("temperature",
        if (30 <? mean_temp)%float then "🔥"
        else if (mean_temp <? 10)%float then "❄️" else "🌡️");
      ("wind_speed", "🌬️");
      ("humidity", "💧");
      ("precipitation", if (1 <? mean_precip)%float then "🌧️" else "☀️") ].

Definition feature_labels : gmap string string :=
  list_to_map
    [ ("temperature", "Temperature"); ("wind_speed", "Wind Speed");
      ("humidity", "Humidity"); ("precipitation", "Precipitation") ].

Definition features_of (detailed_feature : string) : list string :=
  if String.eqb detailed_feature "all"
  then ["temperature"; "wind_speed"; "humidity"; "precipitation"]
  else [detailed_feature].

(** [value, unit] of one feature; [None] for the pair of empty strings
    of the last branch. *)
Definition value_unit (temp_unit : string) (df_24h : list Row24)
    (feat : string) : option (float * string) :=
  if String.eqb feat "temperature" then
    let m := Series_mean py (column temperature df_24h) in
    Some (if String.eqb temp_unit "C" then m else (m * 9 / 5 + 32)%float,
          if String.eqb temp_unit "C" then "°C" else "°F")
  else if String.eqb feat "wind_speed" then
    Some (Series_mean py (column wind_speed df_24h), "km/h")
  else if String.eqb feat "humidity" then
    Some (Series_mean py (column humidity df_24h), "%")
  else if String.eqb feat "precipitation" then
    Some (Series_sum py (column precipitation df_24h), "mm")
  else None.

(** One turn of the card loop: [icon_map[feat]] and
    [feature_labels[feat]] raise on an unknown feature, before the value
    is formatted. *)
Definition feature_card (temp_unit : string) (df_24h : list Row24)
    (feat : string) : Error + Card :=
  let vu := value_unit temp_unit df_24h feat in
  match icon_map df_24h !! feat with
  | None => inl KeyError
  | Some icon =>
      match feature_labels !! feat with
      | None => inl KeyError
      | Some label =>
          match vu with
          | None => inl ValueError
          | Some (value, unit) =>
              inr (mk_Card icon label (format_1f py value +:+ " " +:+ unit))
          end
      end
  end.

Fixpoint feature_cards (temp_unit : string) (df_24h : list Row24)
    (features : list string) : Error + list Card :=
  match features with
  | [] => inr []
  | feat :: rest =>
      match feature_card temp_unit df_24h feat with
      | inl e => inl e
      | inr c =>
          match feature_cards temp_unit df_24h rest with
          | inl e => inl e
          | inr cs => inr (c :: cs)
          end
      end
  end.

Definition mem (x : string) (l : list string) : bool :=
  existsb (String.eqb x) l.

Definition figure (temp_unit city_upper : string) (target_date : Z)
    (features : list string) (df_24h : list Row24) : Figure :=
  let x := map (fun r : Row24 => Time r) df_24h in
  let traces := [] in
  let traces :=
    if mem "temperature" features then
      let y_data :=
        if String.eqb temp_unit "C" then column temperature df_24h
        else map (fun r : Row24 => temperature r * 9 / 5 + 32)%float df_24h in
      let unit := if String.eqb temp_unit "C" then "°C" else "°F" in
      traces ++ [mk_Trace ("Temp (" +:+ unit +:+ ")") x y_data]
    else traces in
  let traces :=
    if mem "wind_speed" features
    then traces ++ [mk_Trace "Wind Speed (km/h)" x (column wind_speed df_24h)]
    else traces in
  let traces :=
    if mem "humidity" features
    then traces ++ [mk_Trace "Humidity (%)" x (column humidity df_24h)]
    else traces in
  let traces :=
    if mem "precipitation" features
    then traces ++ [mk_Trace "Precipitation (mm)" x (column precipitation df_24h)]
    else traces in
  mk_Figure traces
    (Some ("Hourly Weather Forecast - " +:+ str_title py city_upper
           +:+ " (" +:+ str_date py target_date +:+ ")"))
    (Some "Time") (Some "Values").

(** *** [update_forecast] *)

(** The clock and the network: [clock k] is what the [k]-th call of
    [datetime.now()] of one run returns, [requests_get] the decoded
    [data["hourly"]] of the reply ([None] when the request, its JSON or
    its [time] strings fail). *)
Context (clock : nat -> Clock.datetime)
        (requests_get : Feed.Request -> option Feed.Hourly).

Definition nonempty_str (s : option string) : bool :=
  match s with
  | None => false
  | Some s => negb (String.eqb s "")
  end.

Definition target_date_of (today : Z) (a : Args) : Error + Z :=
  if match triggered a with [] => false | _ => true end
     && existsb (contains "date-picker") (triggered a)
     && nonempty_str (selected_date a)
  then
    match selected_date a with
    | Some s =>
        match strptime_Ymd py s with
        | Some d => inr d
        | None => inl ValueError
        end
    | None => inr today
    end
  else inr today.

Definition forecast_url (lat lon : float) (past_days : Z) : Feed.Request :=
  {| Feed.latitude := lat;
     Feed.longitude := lon;
     Feed.past_days := if past_days >? 0 then Some past_days else None;
     Feed.forecast_days :=
       if past_days >? 0 then None
       else if past_days <? 0 then Some (Z.abs past_days) else None |}.

(** What the first part of the callback (up to [pd.DataFrame]) ends
    with: no update, an exception, or the city key, the target date
    and the frame [df]. *)
Inductive Fetch : Type :=
  | fetch_no_update
  | fetch_raised (e : Error)
  | fetched (city_upper : string) (target_date : Z) (df : list Row).

Definition fetch (a : Args) : Fetch :=
  match city a with
  | None => fetch_no_update
  | Some city =>
  if String.eqb city "" then fetch_no_update else
  let city_upper := str_upper py city in
  match CITIES !! city_upper with
  | None => fetch_raised KeyError
  | Some (lat, lon) =>
  let today := Clock.date (clock 0) in
  match target_date_of today a with
  | inl e => fetch_raised e
  | inr target_date =>
  let past_days := today - target_date in
  match requests_get (forecast_url lat lon past_days) with
  | None => fetch_raised RequestError
  | Some data =>
  match DataFrame data with
  | None => fetch_raised ValueError
  | Some df => fetched city_upper target_date df
  end end end end end.

Definition update_forecast (a : Args) (fs : FS) : Outcome :=
  match fetch a with
  | fetch_no_update => no_update
  | fetch_raised e => raised e fs
  | fetched city_upper target_date df =>
  let fs := save_raw_data (clock 1) city_upper df fs in
  let df_clean := clean_data df in
  let fs := save_clean_data (clock 2) city_upper df_clean fs in
  let df_24h := window target_date (alert_start_hour a) df_clean in
  let features := features_of (detailed_feature a) in
  match feature_cards (temp_unit a) df_24h features with
  | inl e => raised e fs
  | inr feature_cards =>
  let '(fig, graph_style, icons_div) :=
    if String.eqb (visual_mode a) "icons"
    then (mk_Figure [] None None None, "none", feature_cards)
    else (figure (temp_unit a) city_upper target_date features df_24h,
          "block", []) in
  let alerts := alerts (thresholds a) df_24h in
  let alert_message :=
    match alerts with [] => "" | _ => join newline alerts end in
  let alert_displayed := match alerts with [] => false | _ => true end in
  match summary (dtypes df) (clock 3) df_24h with
  | inl e => raised e fs
  | inr summary_text =>
  let df_table := report_table (temp_unit a) df_24h in
  let fs := save_daily_report (clock 4) city_upper df_table fs in
  returned
    {| fig := fig; graph_style := graph_style; icons_div := icons_div;
       alert_message := alert_message; alert_displayed := alert_displayed;
       summary_text := summary_text; table := df_table |} fs
  end end end.

End Callback.

(** A stand-in for the library, for running the callback on examples. *)
Definition plain_lib : Lib :=
  {| str_upper := fun s => s;
     str_title := fun s => s;
     strptime_Ymd := fun _ => None;
     str_date := fun _ => "";
     str_Timestamp := fun _ => "";
     strftime_Ymd_HM := fun _ => "";
     str_float := fun _ => "";
     format_1f := fun _ => "";
     format_2f := fun _ => "";
     Series_mean := fun _ => nan;
     Series_sum := fun _ => 0%float |}.

(** ** Sample observations

    Hour [h] of day 0, with the four readings. *)
Definition at_hour (h : Z) (t w hu p : float) : Row :=
  mk_Row (h * Clock.ns_per_hour) t w hu p.

(** A series is in ascending order of its [Time] column. *)
Definition ascending (df : list Row) : Prop := Sorted Z.le (map Time df).

(** [r] is the row [r0] of the feed after cleaning: same [Time], every
    reading present in [r0] unchanged (a missing one may have been
    filled). *)
Definition kept_as (r0 r : Row) : Prop :=
  Time r = Time r0 /\
  (is_nan (temperature r0) = false -> temperature r = temperature r0) /\
  (is_nan (wind_speed r0) = false -> wind_speed r = wind_speed r0) /\
  (is_nan (humidity r0) = false -> humidity r = humidity r0) /\
  (is_nan (precipitation r0) = false -> precipitation r = precipitation r0).

(** The first row of [df], in feed order, whose [Time] is [t]. *)
Definition first_at (t : Z) (df : list Row) : option Row :=
  find (fun r => Time r =? t) df.

(** ** Reading the alert list *)

#[global] Instance AlertKind_eq_dec : EqDecision AlertKind.
Proof. solve_decision. Defined.

(** Place of a threshold in the order the callback scans them. *)
Definition rank (k : AlertKind) : nat :=
  match k with
  | MaxTemp => 0 | MinTemp => 1 | MaxWind => 2 | MinHumidity => 3 | Precip => 4
  end.

Definition threshold_of (k : AlertKind) (th : Thresholds) : option float :=
  match k with
  | MaxTemp => max_temp th
  | MinTemp => min_temp th
  | MaxWind => max_wind th
  | MinHumidity => min_humidity th
  | Precip => precip_threshold th
  end.

Definition column_of (k : AlertKind) (row : Row24) : float :=
  match k with
  | MaxTemp | MinTemp => temperature row
  | MaxWind => wind_speed row
  | MinHumidity => humidity row
  | Precip => precipitation row
  end.

(** Reading [x] breaks the threshold [m] of kind [k]. *)
Definition violates (k : AlertKind) (m x : float) : bool :=
  match k with
  | MaxTemp | MaxWind | Precip => (m <? x)%float
  | MinTemp | MinHumidity => (x <? m)%float
  end.

(** The violations of one threshold, one event per offending row, in
    series order; none when the threshold is not set. *)
Definition violations (k : AlertKind) (th : Thresholds)
    (df_24h : list Row24) : list AlertEvent :=
  match threshold_of k th with
  | None => []
  | Some m =>
      map (fun row => mk_AlertEvent k (column_of k row) (Time row))
          (List.filter (fun row => violates k m (column_of k row)) df_24h)
  end.

(** The events of one kind in an alert list, in list order. *)
Definition events_of (k : AlertKind) (evs : list AlertEvent)
    : list AlertEvent :=
  List.filter (fun e => bool_decide (metric e = k)) evs.

Definition with_max_temp (th : Thresholds) (m : float) : Thresholds :=
  {| max_temp := Some m; min_temp := min_temp th; max_wind := max_wind th;
     min_humidity := min_humidity th;
     precip_threshold := precip_threshold th |}.

Definition with_min_humidity (th : Thresholds) (m : float) : Thresholds :=
  {| max_temp := max_temp th; min_temp := min_temp th;
     max_wind := max_wind th; min_humidity := Some m;
     precip_threshold := precip_threshold th |}.

Definition with_temp_unit (a : Args) (u : string) : Args :=
  {| triggered := triggered a; n_clicks := n_clicks a;
     selected_date := selected_date a; visual_mode := visual_mode a;
     city := city a; thresholds := thresholds a; temp_unit := u;
     detailed_feature := detailed_feature a;
     alert_start_hour := alert_start_hour a |}.

(** The alert outputs of a run, when it returns. *)
Definition alert_outputs (o : Outcome) : option (string * bool) :=
  match o with
  | returned out _ => Some (alert_message out, alert_displayed out)
  | _ => None
  end.

(** A hot, dry morning: 10:00 and 11:00 of day 0, both above 30 degrees
    and below 30 percent humidity. *)
Definition hot_dry_day : list Row24 :=
  [in_24h (at_hour 10 35 12 20 0); in_24h (at_hour 11 36 12 25 0)].

Definition no_thresholds : Thresholds :=
  {| max_temp := None; min_temp := None; max_wind := None;
     min_humidity := None; precip_threshold := None |}.

Definition hot_dry_thresholds : Thresholds :=
  with_min_humidity (with_max_temp no_thresholds 30) 30.

(** The values the feature selector of the page offers. *)
Definition feature_choices : list string :=
  ["all"; "temperature"; "wind_speed"; "humidity"; "precipitation"].

(** The features the callback knows: the keys of [icon_map] and of
    [feature_labels]. *)
Abbreviation known_features :=
  ["temperature"; "wind_speed"; "humidity"; "precipitation"]%string.

(** ** A sample run

    Saturday 2024-06-01 (day 19875), London, the feed holding 10:00 and
    11:00 of that day. *)
Definition noon : Clock.datetime := Clock.mk_datetime 2024 6 1 12 0 0 0.

Definition sample_clock (k : nat) : Clock.datetime :=
  Clock.mk_datetime 2024 6 1 12 0 (Z.of_nat k) 0.

Definition sample_hourly : Feed.Hourly :=
  {| Feed.time := [(19875 * 24 + 10) * Clock.ns_per_hour;
                   (19875 * 24 + 11) * Clock.ns_per_hour];
     Feed.temperature_2m := [20; 35]%float;
     Feed.wind_speed_10m := [12; 12]%float;
     Feed.relative_humidity_2m := [40; 40]%float;
     Feed.precipitation := [0; 0]%float |}.

Definition sample_feed (_ : Feed.Request) : option Feed.Hourly :=
  Some sample_hourly.

Definition sample_frame : list Row :=
  [mk_Row ((19875 * 24 + 10) * Clock.ns_per_hour) 20 12 40 0;
   mk_Row ((19875 * 24 + 11) * Clock.ns_per_hour) 35 12 40 0].

(** The request of a user who asks for London and starts alerts after
    23:00, which leaves no hour of the day. *)
Definition late_args : Args :=
  {| triggered := ["submit-button.n_clicks"]; n_clicks := Some 1;
     selected_date := None; visual_mode := "graph";
     city := Some "LONDON";
     thresholds := with_max_temp no_thresholds 30;
     temp_unit := "C"; detailed_feature := "all";
     alert_start_hour := Some 23 |}.

(** ** Reading the summary *)

(** The three readings the summary compares, in the order of the columns
    of [max_change]. *)
Inductive ChangeMetric : Type := Temperature | WindSpeed | Humidity.

Definition priority (k : ChangeMetric) : nat :=
  match k with Temperature => 0 | WindSpeed => 1 | Humidity => 2 end.

Definition reading (k : ChangeMetric) : Row -> float :=
  match k with
  | Temperature => temperature
  | WindSpeed => wind_speed
  | Humidity => humidity
  end.

(** The sentence of the summary for a change [v] of metric [k]. *)
Definition change_message (py : Lib) (k : ChangeMetric) (v : float) : string :=
  match k with
  | Temperature =>
      "Temperature changed by " +:+ format_1f py v +:+ " °C in last hour."
  | WindSpeed =>
      "Wind Speed changed by " +:+ format_2f py v +:+ " km/h in last hour."
  | Humidity =>
      "Humidity changed by " +:+ format_2f py v +:+ "% in last hour."
  end.

(** [k] has the greatest of the maxima [M], and is the first to have it:
    [M k] is a number, no maximum is above it and every maximum of a
    metric that comes before [k] is strictly below it. *)
Definition greatest_first (M : ChangeMetric -> float) (k : ChangeMetric)
    : Prop :=
  is_nan (M k) = false /\
  forall j, is_nan (M j) = false ->
    (M j <=? M k)%float = true /\
    ((priority j < priority k)%nat -> (M j <? M k)%float = true).

(** [v] is the absolute difference of two adjacent values of [col]. *)
Definition adjacent_change (col : list float) (v : float) : Prop :=
  exists (i : nat) (x y : float),
    col !! i = Some x /\ col !! S i = Some y /\ v = abs (y - x)%float.

(** The label of the column of [max_change] that holds metric [k]. *)
Definition diff_label (k : ChangeMetric) : string :=
  match k with
  | Temperature => "temp_diff"
  | WindSpeed => "wind_diff"
  | Humidity => "humidity_diff"
  end.

(** The column of the frame that holds metric [k]. *)
Definition column_id (k : ChangeMetric) : Column :=
  match k with
  | Temperature => col_temperature
  | WindSpeed => col_wind_speed
  | Humidity => col_humidity
  end.

(** The greatest absolute adjacent difference of metric [k] in the
    frame the summary looks at, [nan] when there is none. *)
Definition change_maxima (df_last_hour : list Row24) (k : ChangeMetric)
    : float :=
  Series_max (map abs (diff_values (column (reading k) df_last_hour))).

(** The summary can take its differences: every column it reads holds
    numbers, or the frame it looks at has fewer than two rows. *)
Definition subtractable (dtype : Column -> Dtype)
    (df_last_hour : list Row24) : Prop :=
  (forall k, dtype (column_id k) = float64) \/
  (length df_last_hour < 2)%nat.

(** A feed whose wind speed is [null] at every hour, the rest as in
    [sample_hourly]. *)
Definition calm_hourly : Feed.Hourly :=
  {| Feed.time := Feed.time sample_hourly;
     Feed.temperature_2m := [20; 35]%float;
     Feed.wind_speed_10m := [nan; nan]%float;
     Feed.relative_humidity_2m := [40; 40]%float;
     Feed.precipitation := [0; 0]%float |}.

Definition calm_feed (_ : Feed.Request) : option Feed.Hourly :=
  Some calm_hourly.

Definition calm_frame : list Row :=
  [mk_Row ((19875 * 24 + 10) * Clock.ns_per_hour) 20 nan 40 0;
   mk_Row ((19875 * 24 + 11) * Clock.ns_per_hour) 35 nan 40 0].

(** A reading of the clock at 10:30 of the sample day: both rows of the
    feed are within the last hour or ahead. *)
Definition half_past_ten (k : nat) : Clock.datetime :=
  Clock.mk_datetime 2024 6 1 10 30 (Z.of_nat k) 0.

(** The series [max_change] for maxima [M]. *)
Definition change_series (M : ChangeMetric -> float) : list (string * float) :=
  [ ("temp_diff", M Temperature); ("wind_diff", M WindSpeed);
    ("humidity_diff", M Humidity) ].

(** ** Reading the snapshot store *)

Inductive SnapshotKind : Type := RawSnapshot | CleanSnapshot | ReportSnapshot.

#[global] Instance SnapshotKind_eq_dec : EqDecision SnapshotKind.
Proof. solve_decision. Defined.

Definition snapshot_path (k : SnapshotKind) (now : Clock.datetime)
    (city_upper : string) : string :=
  match k with
  | RawSnapshot => raw_path now city_upper
  | CleanSnapshot => clean_path now city_upper
  | ReportSnapshot => report_path now city_upper
  end.

(** The part of the time of a write that reaches the file name: down to
    the second for a raw or cleaned snapshot, the date for a report. *)
Definition stamp (k : SnapshotKind) (now : Clock.datetime) : list Z :=
  match k with
  | ReportSnapshot => [Clock.year now; Clock.month now; Clock.day now]
  | _ => [Clock.year now; Clock.month now; Clock.day now;
          Clock.hour now; Clock.minute now; Clock.second now]
  end.

Definition snapshot_key (k : SnapshotKind) (now : Clock.datetime)
    (city_upper : string) : SnapshotKind * string * list Z :=
  (k, city_upper, stamp k now).

(** The files a run leaves behind. *)
Definition files_after (o : Outcome) (fs0 : FS) : FS :=
  match o with
  | no_update => fs0
  | raised _ fs => fs
  | returned _ fs => fs
  end.

(** Two requests for London on the same day: the first at noon for the
    whole day, the second at 15:30 with alerts starting after 23:00. *)
Definition day_args : Args :=
  {| triggered := ["submit-button.n_clicks"]; n_clicks := Some 1;
     selected_date := None; visual_mode := "graph";
     city := Some "LONDON";
     thresholds := with_max_temp no_thresholds 30;
     temp_unit := "C"; detailed_feature := "all";
     alert_start_hour := None |}.

Definition later_clock (k : nat) : Clock.datetime :=
  Clock.mk_datetime 2024 6 1 15 30 (Z.of_nat k) 0.

Definition first_run : Outcome :=
  update_forecast plain_lib sample_clock sample_feed day_args ∅.

Definition second_run : Outcome :=
  update_forecast plain_lib later_clock sample_feed late_args
    (files_after first_run ∅).

(** ** The other callbacks *)

(** [s.split(sep)[0]]: the text before the first [sep]. *)
Fixpoint split_head (sep : ascii) (s : string) : string :=
  match s with
  | EmptyString => EmptyString
  | String c rest =>
      if Ascii.eqb c sep then EmptyString else String c (split_head sep rest)
  end.

(** The callback of the calendar modal; [triggered] holds the [prop_id]s
    of [ctx.triggered], empty when nothing triggered the call. *)
Definition toggle_calendar_modal (triggered : list string)
    (open_clicks : option Z) (selected_date : option string)
    (is_open : bool) : bool :=
  match triggered with
  | [] => false
  | prop_id :: _ =>
      let trigger := split_head "." prop_id in
      if String.eqb trigger "open-calendar-btn" then true
      else if String.eqb trigger "date-picker" && nonempty_str selected_date
      then false
      else is_open
  end.

(** The nine values the reset callback hands back, in the order of its
    outputs; the five thresholds together. *)
Record ResetValues : Type := mk_ResetValues {
  reset_city : string;
  reset_feature : string;
  reset_unit : string;
  reset_thresholds : Thresholds;
  reset_start_hour : option Z
}.

(** [reset_inputs]; [None] is [dash.no_update]. *)
Definition reset_inputs (n : option Z) : option ResetValues :=
  match n with
  | None => None
  | Some n =>
      if n =? 0 then None
      else Some {| reset_city := "NEW YORK"; reset_feature := "all";
                   reset_unit := "C";
                   reset_thresholds :=
                     mk_Thresholds None None None None None;
                   reset_start_hour := None |}
  end.

(** The states of [update_forecast] once the page has taken the values
    of a reset: each output of [reset_inputs] is the component property
    the forecast callback reads under the same id. *)
Definition after_reset (r : ResetValues) (a : Args) : Args :=
  {| triggered := triggered a; n_clicks := n_clicks a;
     selected_date := selected_date a; visual_mode := visual_mode a;
     city := Some (reset_city r); thresholds := reset_thresholds r;
     temp_unit := reset_unit r; detailed_feature := reset_feature r;
     alert_start_hour := reset_start_hour r |}.

(** ** Reading a cleaned frame *)

(** The last valid value of a column, [nan] when it has none. *)
Definition last_valid (col : list float) : float := fold_left fill col nan.

(** A row without a missing reading. *)
Definition complete (r : Row) : Prop :=
  forall c, is_nan (cell c r) = false.

(** The rows the summary keeps: [Time >= now - 1 hour]. *)
Definition recent (now : Clock.datetime) (df_24h : list Row24) : list Row24 :=
  List.filter
    (fun r : Row24 => Clock.to_Timestamp now - Clock.ns_per_hour <=? Time r)
    df_24h.

(** The outputs of a run that returns. *)
Definition outputs_of (o : Outcome) : option Outputs :=
  match o with
  | returned out _ => Some out
  | _ => None
  end.

(** A request for a feature the page does not offer. *)
Definition pressure_args : Args :=
  {| triggered := ["submit-button.n_clicks"]; n_clicks := Some 1;
     selected_date := None; visual_mode := "graph";
     city := Some "LONDON"; thresholds := no_thresholds;
     temp_unit := "C"; detailed_feature := "pressure";
     alert_start_hour := None |}.

(** * Properties *)

(** The day numbers of three dates. *)
Example days_from_civil_known :
  Clock.days_from_civil 1970 1 1 = 0 /\
  Clock.days_from_civil 2000 2 29 = 11016 /\
  Clock.days_from_civil 2024 6 1 = 19875.
Proof. repeat split; reflexivity. Qed.

(** ** Cleaning *)

Section CleanFacts.

Implicit Types (df : list Row) (seen : gset Z) (r : Row).

Lemma drop_duplicates_from_sublist seen df :
  sublist (drop_duplicates_from seen df) df.
Proof.
  revert seen; induction df as [|r rest IH]; intros seen; simpl.
  - constructor.
  - destruct (decide (Time r ∈ seen)).
    + apply sublist_cons, IH.
    + apply sublist_skip, IH.
Qed.

Lemma drop_duplicates_from_fresh seen df r :
  In r (drop_duplicates_from seen df) -> Time r ∉ seen.
Proof.
  revert seen; induction df as [|x rest IH]; intros seen; simpl; [tauto|].
  destruct (decide (Time x ∈ seen)) as [Hin|Hout].
  - apply IH.
  - intros [<-|Hr]; [exact Hout|].
    apply IH in Hr. set_solver.
Qed.

Lemma drop_duplicates_from_NoDup seen df :
  NoDup (map Time (drop_duplicates_from seen df)).
Proof.
  revert seen; induction df as [|x rest IH]; intros seen; simpl.
  - constructor.
  - destruct (decide (Time x ∈ seen)) as [Hin|Hout]; [apply IH|].
    simpl. constructor; [|apply IH].
    rewrite list_elem_of_In, in_map_iff. intros (r & Heq & Hr).
    apply drop_duplicates_from_fresh in Hr. set_solver.
Qed.

Lemma drop_duplicates_from_complete seen df t :
  In t (map Time df) -> t ∉ seen ->
  In t (map Time (drop_duplicates_from seen df)).
Proof.
  revert seen; induction df as [|x rest IH]; intros seen; simpl; [tauto|].
  intros Ht Hseen.
  destruct (decide (Time x ∈ seen)) as [Hin|Hout].
  - destruct Ht as [<-|Ht]; [contradiction|]. now apply IH.
  - simpl. destruct (decide (Time x = t)) as [->|Hne]; [now left|].
    right. destruct Ht as [Ht|Ht]; [contradiction|].
    apply IH; [exact Ht|].
    rewrite elem_of_union, elem_of_singleton. intros [?|?]; congruence.
Qed.

Lemma drop_duplicates_from_first seen df r :
  In r (drop_duplicates_from seen df) -> first_at (Time r) df = Some r.
Proof.
  unfold first_at.
  revert seen; induction df as [|x rest IH]; intros seen; simpl; [tauto|].
  destruct (decide (Time x ∈ seen)) as [Hin|Hout].
  - intros Hr. pose proof (drop_duplicates_from_fresh _ _ _ Hr) as Hf.
    destruct (Z.eqb_spec (Time x) (Time r)) as [Heq|_].
    + rewrite Heq in Hin. contradiction.
    + eapply IH, Hr.
  - intros [<-|Hr]; [now rewrite Z.eqb_refl|].
    pose proof (drop_duplicates_from_fresh _ _ _ Hr) as Hf.
    destruct (Z.eqb_spec (Time x) (Time r)) as [Heq|_].
    + exfalso. apply Hf. set_solver.
    + eapply IH, Hr.
Qed.

Lemma drop_duplicates_from_id seen df :
  NoDup (map Time df) -> (forall t, In t (map Time df) -> t ∉ seen) ->
  drop_duplicates_from seen df = df.
Proof.
  revert seen; induction df as [|x rest IH]; intros seen Hnd Hseen; simpl;
    [reflexivity|].
  simpl in Hnd. apply NoDup_cons in Hnd as [Hx Hnd].
  destruct (decide (Time x ∈ seen)) as [Hin|Hout].
  - exfalso. apply (Hseen (Time x)); [now left|exact Hin].
  - f_equal. apply IH; [exact Hnd|].
    intros t Ht. specialize (Hseen t (or_intror Ht)).
    assert (t <> Time x).
    { intros ->. apply Hx. now apply list_elem_of_In. }
    rewrite elem_of_union, elem_of_singleton. intros [?|?]; congruence.
Qed.

(** Forward fill leaves the [Time] column alone. *)
Lemma ffill_below_Time above df :
  map Time (ffill_below above df) = map Time df.
Proof.
  revert above; induction df as [|x rest IH]; intros above; simpl;
    [reflexivity|].
  now rewrite IH.
Qed.

Lemma ffill_Time df : map Time (ffill df) = map Time df.
Proof.
  destruct df as [|x rest]; simpl; [reflexivity|].
  now rewrite ffill_below_Time.
Qed.

Lemma clean_data_Time df :
  map Time (clean_data df) = map Time (drop_duplicates df).
Proof. apply ffill_Time. Qed.

Lemma fill_fill above x : fill above (fill above x) = fill above x.
Proof.
  unfold fill. destruct (is_nan x) eqn:Hx; [|now rewrite Hx].
  now destruct (is_nan above).
Qed.

Lemma ffill_row_twice above r :
  ffill_row above (ffill_row above r) = ffill_row above r.
Proof. unfold ffill_row; simpl. now rewrite !fill_fill. Qed.

Lemma ffill_below_twice above df :
  ffill_below above (ffill_below above df) = ffill_below above df.
Proof.
  revert above; induction df as [|x rest IH]; intros above; simpl;
    [reflexivity|].
  rewrite ffill_row_twice. f_equal. apply IH.
Qed.

Lemma ffill_twice df : ffill (ffill df) = ffill df.
Proof.
  destruct df as [|x rest]; simpl; [reflexivity|].
  now rewrite ffill_below_twice.
Qed.

Lemma kept_as_fill above r : kept_as r (ffill_row above r).
Proof.
  unfold kept_as, ffill_row, fill; simpl.
  repeat split; intros ->; reflexivity.
Qed.

(** Row by row, the cleaned frame is the deduplicated one with holes
    filled. *)
Lemma ffill_below_kept above df :
  Forall2 kept_as df (ffill_below above df).
Proof.
  revert above; induction df as [|x rest IH]; intros above; simpl;
    constructor; [apply kept_as_fill|apply IH].
Qed.

Lemma ffill_kept df : Forall2 kept_as df (ffill df).
Proof.
  destruct df as [|x rest]; simpl; constructor.
  - unfold kept_as; tauto.
  - apply ffill_below_kept.
Qed.

End CleanFacts.

Lemma StronglySorted_sublist {A} (R : relation A) (l1 l2 : list A) :
  sublist l1 l2 -> StronglySorted R l2 -> StronglySorted R l1.
Proof.
  induction 1 as [|x l1 l2 Hsub IH|x l1 l2 Hsub IH]; intros Hs.
  - constructor.
  - apply StronglySorted_inv in Hs as [Hs Hall]. constructor; [now apply IH|].
    rewrite Forall_forall in *. intros y Hy. apply Hall.
    eapply elem_of_sublist; eauto.
  - apply StronglySorted_inv in Hs as [Hs _]. now apply IH.
Qed.

(** [clean_data] never reorders: the [Time] column of its result is the
    feed's with some entries left out. *)
Lemma clean_data_keeps_order (df : list Row) :
  sublist (map Time (clean_data df)) (map Time df).
Proof.
  rewrite clean_data_Time. apply (fmap_sublist Time).
  apply drop_duplicates_from_sublist.
Qed.

(** C1 (as stated, refuted): on a feed that lists 11:00 before 10:00 the
    cleaned series keeps that order, so it is not ascending. *)
Lemma clean_data_not_sorted_cex :
  ~ ascending
      (clean_data [at_hour 11 35 12 40 0; at_hour 10 20 12 40 0]).
Proof.
  unfold ascending.
  replace (map Time _) with [39600000000000; 36000000000000]
    by (vm_compute; reflexivity).
  intros H. apply Sorted_inv in H as [_ H].
  apply HdRel_inv in H. lia.
Qed.

(** C1 (amended): [clean_data] does not sort; it keeps the feed's order.
    On every raw series that is in ascending [Time] order the cleaned
    series is in ascending [Time] order. *)
Theorem clean_data_ascending (df : list Row) :
  ascending df -> ascending (clean_data df).
Proof.
  unfold ascending. intros H.
  apply StronglySorted_Sorted.
  eapply StronglySorted_sublist; [apply clean_data_keeps_order|].
  apply Sorted_StronglySorted; [|exact H].
  intros x y z; apply Z.le_trans.
Qed.

Lemma clean_data_ascending_witness :
  ascending [at_hour 10 20 12 40 0; at_hour 10 21 12 40 0;
             at_hour 11 35 12 40 0] /\
  ascending (clean_data [at_hour 10 20 12 40 0; at_hour 10 21 12 40 0;
                         at_hour 11 35 12 40 0]).
Proof.
  assert (H : ascending [at_hour 10 20 12 40 0; at_hour 10 21 12 40 0;
                         at_hour 11 35 12 40 0]).
  { unfold ascending; simpl. repeat constructor; vm_compute; discriminate. }
  split; [exact H|]. apply clean_data_ascending, H.
Defined.

(** C7: [clean_data] keeps, for each [Time] of the feed, the first row in
    feed order that carries it and no other: the [Time] column of the
    result has no repeats, holds exactly the feed's times, and every row
    of the result is the first feed row of its [Time] (readings present
    there unchanged). *)
Theorem clean_data_first_occurrence (df : list Row) :
  NoDup (map Time (clean_data df)) /\
  (forall t, In t (map Time (clean_data df)) <-> In t (map Time df)) /\
  (forall r, In r (clean_data df) ->
     exists r0, first_at (Time r) df = Some r0 /\ kept_as r0 r).
Proof.
  split; [|split].
  - rewrite clean_data_Time. apply drop_duplicates_from_NoDup.
  - intros t. rewrite clean_data_Time. split.
    + rewrite <- !list_elem_of_In. intros Ht.
      eapply elem_of_sublist; [exact Ht|].
      apply (fmap_sublist Time), drop_duplicates_from_sublist.
    + intros Ht. apply drop_duplicates_from_complete; [exact Ht|].
      apply not_elem_of_empty.
  - intros r Hr. unfold clean_data in Hr.
    pose proof (ffill_kept (drop_duplicates df)) as Hk.
    apply list_elem_of_In in Hr.
    destruct (proj1 (list_elem_of_lookup _ _) Hr) as [i Hi].
    destruct (Forall2_lookup_r _ _ _ _ _ Hk Hi) as (r0 & Hi0 & Hkept).
    exists r0. split; [|exact Hkept].
    destruct Hkept as [-> _].
    eapply drop_duplicates_from_first.
    apply list_elem_of_In, list_elem_of_lookup. eauto.
Qed.

(** C8: cleaning a cleaned series changes nothing. *)
Theorem clean_data_idempotent (df : list Row) :
  clean_data (clean_data df) = clean_data df.
Proof.
  unfold clean_data at 1. unfold drop_duplicates at 1.
  rewrite drop_duplicates_from_id.
  - unfold clean_data. apply ffill_twice.
  - rewrite clean_data_Time. apply drop_duplicates_from_NoDup.
  - intros t _. apply not_elem_of_empty.
Qed.

(** ** Order of binary64 values *)

Section FloatOrder.

Local Open Scope float_scope.

Lemma compare_cont_Eq m1 m2 :
  PosDef.Pos.compare_cont Eq m1 m2 = (m1 ?= m2)%positive.
Proof. reflexivity. Qed.

Ltac cmp_cases :=
  repeat first
    [ rewrite compare_cont_Eq
    | match goal with
      | |- context [(?a ?= ?b)%Z] => destruct (Z.compare_spec a b)
      | |- context [(?a ?= ?b)%positive] => destruct (Pos.compare_spec a b)
      end; cbn [CompOpp] ].

Ltac sf_order :=
  unfold SFleb, SFltb, SFeqb;
  repeat match goal with f : spec_float |- _ => destruct f end;
  simpl; try congruence;
  repeat match goal with s : bool |- _ => destruct s end; simpl;
  try congruence; cmp_cases; subst; try congruence; try lia.

Lemma SFleb_SFltb_trans a b c :
  SFleb a b = true -> SFltb b c = true -> SFltb a c = true.
Proof. sf_order. Qed.

Lemma SFltb_SFleb_trans a b c :
  SFltb a b = true -> SFleb b c = true -> SFltb a c = true.
Proof. sf_order. Qed.

Lemma SFleb_trans a b c :
  SFleb a b = true -> SFleb b c = true -> SFleb a c = true.
Proof. sf_order. Qed.

Lemma SFltb_false_SFleb a b :
  a <> S754_nan -> b <> S754_nan -> SFltb a b = false -> SFleb b a = true.
Proof. sf_order. Qed.

Lemma SFleb_SFltb_false a b : SFleb a b = true -> SFltb b a = false.
Proof. sf_order. Qed.

Lemma SFleb_false_SFltb a b :
  a <> S754_nan -> b <> S754_nan -> SFleb a b = false -> SFltb b a = true.
Proof. sf_order. Qed.

Lemma SFltb_SFeqb_false a b : SFltb a b = true -> SFeqb b a = false.
Proof. sf_order. Qed.

Lemma SFeqb_refl_iff a : SFeqb a a = true <-> a <> S754_nan.
Proof. split; sf_order. Qed.

Lemma SFltb_nan_l b : SFltb S754_nan b = false.
Proof. reflexivity. Qed.

Lemma SFltb_nan_r a : SFltb a S754_nan = false.
Proof. now destruct a. Qed.

Implicit Types a b c x : float.

Lemma is_nan_false a : is_nan a = false <-> Prim2SF a <> S754_nan.
Proof.
  unfold is_nan. rewrite FloatAxioms.eqb_spec, <- SFeqb_refl_iff.
  now destruct (SFeqb _ _).
Qed.

Lemma is_nan_true a : is_nan a = true <-> Prim2SF a = S754_nan.
Proof.
  pose proof (is_nan_false a) as H.
  destruct (is_nan a); split; intros; try easy.
  - destruct (Prim2SF a); try reflexivity; exfalso;
      now assert (true = false) by (apply H; discriminate).
  - exfalso. now apply (proj1 H).
Qed.

Lemma ltb_nan_l a b : is_nan a = true -> (a <? b) = false.
Proof. rewrite is_nan_true, ltb_spec. now intros ->. Qed.

Lemma ltb_nan_r a b : is_nan b = true -> (a <? b) = false.
Proof. rewrite is_nan_true, ltb_spec. intros ->. apply SFltb_nan_r. Qed.

Lemma leb_ltb_trans a b c :
  (a <=? b) = true -> (b <? c) = true -> (a <? c) = true.
Proof. rewrite !ltb_spec, leb_spec. apply SFleb_SFltb_trans. Qed.

Lemma ltb_leb_trans a b c :
  (a <? b) = true -> (b <=? c) = true -> (a <? c) = true.
Proof. rewrite !ltb_spec, leb_spec. apply SFltb_SFleb_trans. Qed.

Lemma leb_trans a b c :
  (a <=? b) = true -> (b <=? c) = true -> (a <=? c) = true.
Proof. rewrite !leb_spec. apply SFleb_trans. Qed.

Lemma ltb_false_leb a b :
  is_nan a = false -> is_nan b = false -> (a <? b) = false ->
  (b <=? a) = true.
Proof.
  rewrite !is_nan_false, ltb_spec, leb_spec. apply SFltb_false_SFleb.
Qed.

Lemma leb_ltb_false a b : (a <=? b) = true -> (b <? a) = false.
Proof. rewrite ltb_spec, leb_spec. apply SFleb_SFltb_false. Qed.

Lemma ltb_leb a b : (a <? b) = true -> (a <=? b) = true.
Proof.
  intros H. apply ltb_false_leb.
  - destruct (is_nan b) eqn:E; [|reflexivity].
    now rewrite (ltb_nan_r a b E) in H.
  - destruct (is_nan a) eqn:E; [|reflexivity].
    now rewrite (ltb_nan_l a b E) in H.
  - destruct (b <? a) eqn:E; [|reflexivity].
    pose proof (leb_ltb_false b a) as H1.
    assert (Hba : (b <=? a) = true).
    { rewrite leb_spec. rewrite ltb_spec in E.
      unfold SFleb. unfold SFltb in E.
      now destruct (SFcompare (Prim2SF b) (Prim2SF a)) as [[]|]. }
    rewrite (H1 Hba) in H. discriminate.
Qed.

Lemma leb_refl a : is_nan a = false -> (a <=? a) = true.
Proof.
  intros H. apply ltb_false_leb; try exact H.
  destruct (a <? a) eqn:E; [|reflexivity].
  rewrite (leb_ltb_false a a (ltb_leb _ _ E)) in E. discriminate.
Qed.

Lemma leb_false_ltb a b :
  is_nan a = false -> is_nan b = false -> (a <=? b) = false ->
  (b <? a) = true.
Proof.
  rewrite !is_nan_false, ltb_spec, leb_spec. apply SFleb_false_SFltb.
Qed.

Lemma abs_not_negative x : (abs x <? 0) = false.
Proof.
  rewrite ltb_spec, abs_spec.
  change (Prim2SF 0) with (S754_zero false).
  now destruct (Prim2SF x) as [[]|[]| |[] m e].
Qed.

Lemma ltb_truthy v : (0 <? v) = true -> truthy v = true.
Proof.
  unfold truthy. rewrite ltb_spec, FloatAxioms.eqb_spec. intros H.
  now rewrite (SFltb_SFeqb_false _ _ H).
Qed.

End FloatOrder.

(** ** Windowing *)

Lemma in_window (target_date : Z) (alert_start_hour : option Z)
    (df_clean : list Row) (w : Row24) :
  In w (window target_date alert_start_hour df_clean) <->
  (exists r, In r df_clean /\ w = in_24h r /\
             Clock.dt_date (Time r) = target_date /\
             match alert_start_hour with
             | Some h => h < Clock.dt_hour (Time r)
             | None => True
             end).
Proof.
  unfold window, after_start_hour, select_date.
  destruct alert_start_hour as [h|].
  - rewrite filter_In, in_map_iff. split.
    + intros [(r & <- & Hr) Hh]. apply filter_In in Hr as [Hr Hd].
      exists r. simpl in Hh. repeat split; trivial; lia.
    + intros (r & Hr & -> & Hd & Hh). split; [|simpl; lia].
      exists r. split; [reflexivity|]. apply filter_In. split; [exact Hr|lia].
  - rewrite in_map_iff. split.
    + intros (r & <- & Hr). apply filter_In in Hr as [Hr Hd].
      exists r. repeat split; trivial; lia.
    + intros (r & Hr & -> & Hd & _). exists r. split; [reflexivity|].
      apply filter_In. split; [exact Hr|lia].
Qed.

(** C5: with [alert_start_hour = h], no observation at hour [h] is in the
    windowed series, and every observation of the target date at hour
    [h + 1] is. *)
Theorem window_start_hour_exclusive (target_date h : Z)
    (df_clean : list Row) :
  (forall r, Clock.dt_hour (Time r) = h ->
     ~ In (in_24h r) (window target_date (Some h) df_clean)) /\
  (forall w, In w (window target_date (Some h) df_clean) ->
     Clock.dt_hour (Time w) <> h) /\
  (forall r, In r df_clean -> Clock.dt_date (Time r) = target_date ->
     Clock.dt_hour (Time r) = h + 1 ->
     In (in_24h r) (window target_date (Some h) df_clean)).
Proof.
  split; [|split].
  - intros r Hh Hin. apply in_window in Hin as (r' & _ & Heq & _ & Hlt).
    injection Heq as Heq _. subst r'. lia.
  - intros w Hin. apply in_window in Hin as (r & _ & -> & _ & Hlt).
    simpl. lia.
  - intros r Hr Hd Hh. apply in_window. exists r.
    repeat split; trivial. lia.
Qed.

(** The bound at work: of the rows of day 0 at hours 5, 6 and 7, a start
    hour of 5 keeps those at 6 and 7. *)
Example window_after_5 :
  map (fun w : Row24 => Clock.dt_hour (Time w))
      (window 0 (Some 5)
         [at_hour 5 18 10 50 0; at_hour 6 19 10 50 0; at_hour 7 20 10 50 0;
          at_hour 30 20 10 50 0])
  = [6; 7].
Proof. vm_compute. reflexivity. Qed.

(** ** Alerts *)

Section AlertFacts.

Implicit Types (th : Thresholds) (df : list Row24) (k : AlertKind).

Lemma events_of_app k (l1 l2 : list AlertEvent) :
  events_of k (l1 ++ l2) = events_of k l1 ++ events_of k l2.
Proof. apply List.filter_app. Qed.

Lemma events_of_scan k k' col mask df :
  events_of k (scan k' col mask df) =
  if bool_decide (k' = k) then scan k' col mask df else [].
Proof.
  unfold events_of, scan.
  induction (List.filter (fun row => mask (col row)) df) as [|x l IH];
    simpl.
  - now destruct (bool_decide (k' = k)).
  - rewrite IH. now destruct (bool_decide (k' = k)).
Qed.

(** The callback's five scans, written as one concatenation. *)
Lemma alert_events_groups th df :
  alert_events th df =
  violations MaxTemp th df ++ violations MinTemp th df
  ++ violations MaxWind th df ++ violations MinHumidity th df
  ++ violations Precip th df.
Proof.
  unfold alert_events, violations, scan; simpl.
  destruct (max_temp th), (min_temp th), (max_wind th), (min_humidity th),
    (precip_threshold th); simpl;
    rewrite <- ?app_assoc, ?app_nil_r; reflexivity.
Qed.

Lemma violations_metric k th df e :
  In e (violations k th df) -> metric e = k.
Proof.
  unfold violations. destruct (threshold_of k th); simpl; [|tauto].
  rewrite in_map_iff. now intros (row & <- & _).
Qed.

Lemma events_of_violations k k' th df :
  events_of k (violations k' th df) =
  if bool_decide (k' = k) then violations k' th df else [].
Proof.
  unfold violations. destruct (threshold_of k' th).
  - apply (events_of_scan k k' (column_of k')
             (fun x => violates k' f x)).
  - now destruct (bool_decide (k' = k)).
Qed.

(** The events of kind [k] in the alert list are the violations of
    threshold [k], in series order. *)
Lemma events_of_alert_events k th df :
  events_of k (alert_events th df) = violations k th df.
Proof.
  rewrite alert_events_groups, !events_of_app, !events_of_violations.
  destruct k; simpl; rewrite ?app_nil_r; reflexivity.
Qed.

Lemma same_metric_ranked k (l : list AlertEvent) :
  (forall e, In e l -> metric e = k) ->
  StronglySorted (fun a b => (rank (metric a) <= rank (metric b))%nat) l.
Proof.
  induction l as [|e l IH]; intros Hm; constructor.
  - apply IH. intros e' He'. apply Hm. now right.
  - apply Forall_forall. intros e' He'. apply list_elem_of_In in He'.
    rewrite (Hm e (or_introl eq_refl)), (Hm e' (or_intror He')). lia.
Qed.

Lemma alert_events_ranked th df :
  StronglySorted (fun a b => (rank (metric a) <= rank (metric b))%nat)
    (alert_events th df).
Proof.
  rewrite alert_events_groups.
  repeat (apply StronglySorted_app_2; [| |]);
    try (eapply same_metric_ranked, violations_metric);
    intros a b Ha Hb; apply list_elem_of_In in Ha, Hb;
    rewrite ?in_app_iff in Hb;
    repeat destruct Hb as [Hb|Hb];
    apply violations_metric in Ha, Hb; rewrite Ha, Hb; simpl; lia.
Qed.

End AlertFacts.

Lemma filter_length_le {A} (p q : A -> bool) (l : list A) :
  (forall x, In x l -> p x = true -> q x = true) ->
  (length (List.filter p l) <= length (List.filter q l))%nat.
Proof.
  induction l as [|x l IH]; intros Hpq; simpl; [lia|].
  assert (IH' := IH (fun y Hy => Hpq y (or_intror Hy))).
  destruct (p x) eqn:Hp.
  - rewrite (Hpq x (or_introl eq_refl) Hp). simpl. lia.
  - destruct (q x); simpl; lia.
Qed.

(** C4: the alert events come grouped by threshold, in the order
    max_temp, min_temp, max_wind, min_humidity, precipitation; inside a
    group they are the violations of that threshold in series order.  The
    list is not merged by time: on [hot_dry_day] the times of the events
    go 10:00, 11:00, 10:00, 11:00. *)
Theorem alert_events_by_threshold_group (th : Thresholds)
    (df_24h : list Row24) :
  StronglySorted (fun a b => (rank (metric a) <= rank (metric b))%nat)
    (alert_events th df_24h) /\
  (forall k, events_of k (alert_events th df_24h) = violations k th df_24h) /\
  (Sorted Z.le (map (fun w : Row24 => Time w) hot_dry_day) /\
   ~ Sorted Z.le (map timestamp (alert_events hot_dry_thresholds hot_dry_day))).
Proof.
  split; [apply alert_events_ranked|].
  split; [intros k; apply events_of_alert_events|].
  split.
  - simpl. repeat constructor. vm_compute. discriminate.
  - replace (map timestamp _)
      with [36000000000000; 39600000000000; 36000000000000; 39600000000000]
      by (vm_compute; reflexivity).
    intros H. apply Sorted_inv in H as [H _].
    apply Sorted_inv in H as [_ H]. apply HdRel_inv in H. lia.
Qed.

(** C9: raising [max_temp] from [lo] to [hi] does not add max_temp
    events, and lowering [min_humidity] from [hi] to [lo] does not add
    min_humidity events, whatever the series and the other thresholds. *)
Theorem alert_count_monotone (th : Thresholds) (df_24h : list Row24)
    (lo hi : float) :
  (lo <=? hi)%float = true ->
  (length (events_of MaxTemp (alert_events (with_max_temp th hi) df_24h))
   <= length (events_of MaxTemp (alert_events (with_max_temp th lo) df_24h))
   /\
   length (events_of MinHumidity
             (alert_events (with_min_humidity th lo) df_24h))
   <= length (events_of MinHumidity
                (alert_events (with_min_humidity th hi) df_24h)))%nat.
Proof.
  intros Hle. rewrite !events_of_alert_events.
  unfold violations; simpl. rewrite !length_map. split.
  - apply filter_length_le. intros row _. apply leb_ltb_trans, Hle.
  - apply filter_length_le. intros row _ Hlt.
    eapply ltb_leb_trans; [exact Hlt|exact Hle].
Qed.

Lemma alert_count_monotone_witness :
  (30 <=? 35.5)%float = true /\
  (length (events_of MaxTemp
             (alert_events (with_max_temp no_thresholds 35.5) hot_dry_day))
   <= length (events_of MaxTemp
                (alert_events (with_max_temp no_thresholds 30) hot_dry_day))
   /\
   length (events_of MinHumidity
             (alert_events (with_min_humidity no_thresholds 30) hot_dry_day))
   <= length (events_of MinHumidity
                (alert_events (with_min_humidity no_thresholds 35.5)
                   hot_dry_day)))%nat.
Proof.
  split; [reflexivity|].
  apply (alert_count_monotone no_thresholds hot_dry_day 30 35.5).
  reflexivity.
Defined.

(** With [max_temp = 30] the series 10:00 at 20 degrees, 11:00 at 35
    degrees raises one alert, for 11:00 and 35 degrees. *)
Example one_alert_at_11 :
  alert_events (with_max_temp no_thresholds 30)
    [in_24h (at_hour 10 20 12 40 0); in_24h (at_hour 11 35 12 40 0)]
  = [mk_AlertEvent MaxTemp 35 (11 * Clock.ns_per_hour)].
Proof. vm_compute. reflexivity. Qed.

(** ** The callback as a whole *)

Section CallbackFacts.

Context (py : Lib) (clock : nat -> Clock.datetime)
        (requests_get : Feed.Request -> option Feed.Hourly).

Lemma icon_map_known df feat :
  In feat ["temperature"; "wind_speed"; "humidity"; "precipitation"] ->
  is_Some (icon_map py df !! feat) /\ is_Some (feature_labels !! feat)
  /\ forall u, is_Some (value_unit py u df feat).
Proof.
  unfold icon_map, feature_labels, value_unit.
  intros H. simpl in H.
  destruct H as [<-|[<-|[<-|[<-|[]]]]]; simpl;
    (split; [|split; [|intros u]]); simplify_map_eq; eauto.
Qed.

Lemma feature_card_known u df feat :
  In feat ["temperature"; "wind_speed"; "humidity"; "precipitation"] ->
  exists c, feature_card py u df feat = inr c.
Proof.
  intros H. destruct (icon_map_known df feat H) as ([i Hi] & [l Hl] & Hv).
  destruct (Hv u) as [[v unit] Hvu].
  unfold feature_card. rewrite Hi, Hl, Hvu. eauto.
Qed.

Lemma feature_cards_known u df feats :
  (forall f, In f feats ->
     In f ["temperature"; "wind_speed"; "humidity"; "precipitation"]) ->
  exists cs, feature_cards py u df feats = inr cs.
Proof.
  induction feats as [|f feats IH]; intros H; simpl; [eauto|].
  destruct (feature_card_known u df f (H f (or_introl eq_refl))) as [c ->].
  destruct IH as [cs ->]; [intros g Hg; apply H; now right|]. eauto.
Qed.

Lemma features_of_choice f :
  In f feature_choices ->
  forall g, In g (features_of f) ->
    In g ["temperature"; "wind_speed"; "humidity"; "precipitation"].
Proof.
  unfold feature_choices, features_of. simpl.
  intros [<-|[<-|[<-|[<-|[<-|[]]]]]] g; simpl; tauto.
Qed.

(** Whether a card can be made does not depend on the unit. *)
Lemma feature_card_unit u u' df feat :
  match feature_card py u df feat, feature_card py u' df feat with
  | inr _, inr _ => True
  | inl e, inl e' => e = e'
  | _, _ => False
  end.
Proof.
  unfold feature_card, value_unit.
  destruct (icon_map py df !! feat); [|reflexivity].
  destruct (feature_labels !! feat); [|reflexivity].
  repeat match goal with
         | |- context [String.eqb feat ?s] => destruct (String.eqb feat s)
         end; exact I || reflexivity.
Qed.

Lemma feature_cards_unit u u' df feats :
  match feature_cards py u df feats, feature_cards py u' df feats with
  | inr _, inr _ => True
  | inl e, inl e' => e = e'
  | _, _ => False
  end.
Proof.
  induction feats as [|f feats IH]; simpl; [exact I|].
  pose proof (feature_card_unit u u' df f) as Hf.
  destruct (feature_card py u df f), (feature_card py u' df f);
    try contradiction; try exact Hf.
  destruct (feature_cards py u df feats), (feature_cards py u' df feats);
    try contradiction; try exact IH; exact I.
Qed.

Lemma summary_empty dtype now :
  summary py dtype now [] = inr no_significant_changes.
Proof.
  unfold summary, abs_diff, diff. simpl.
  now destruct (dtype col_temperature), (dtype col_wind_speed),
    (dtype col_humidity).
Qed.

(** C3: a run whose windowed series is empty returns (for a feature the
    page offers): no alert, the no-change summary, a table without
    rows, and the report snapshot holding that table. *)
Theorem empty_window_handled (a : Args) (fs : FS) (city_upper : string)
    (target_date : Z) (df : list Row) :
  fetch py clock requests_get a = fetched city_upper target_date df ->
  window target_date (alert_start_hour a) (clean_data df) = [] ->
  In (detailed_feature a) feature_choices ->
  exists out fs',
    update_forecast py clock requests_get a fs = returned out fs' /\
    alert_events (thresholds a) [] = [] /\
    alert_message out = "" /\ alert_displayed out = false /\
    summary_text out = no_significant_changes /\
    body (table out) = [] /\
    fs' !! report_path (clock 4%nat) city_upper = Some (csv_table (table out)).
Proof.
  intros Hfetch Hwin Hfeat.
  unfold update_forecast. rewrite Hfetch. cbv zeta. rewrite Hwin.
  destruct (feature_cards_known (temp_unit a) []
              (features_of (detailed_feature a))
              (features_of_choice _ Hfeat)) as [cs ->].
  assert (Hal : alert_events (thresholds a) [] = []).
  { unfold alert_events, scan; simpl.
    now destruct (max_temp _), (min_temp _), (max_wind _),
      (min_humidity _), (precip_threshold _). }
  unfold alerts. rewrite Hal. simpl map. rewrite summary_empty.
  destruct (String.eqb (visual_mode a) "icons");
    (eexists; eexists; split; [reflexivity|]); simpl;
    repeat split; trivial;
    try (unfold report_table; now destruct (String.eqb (temp_unit a) "C"));
    unfold save_daily_report, to_csv; apply lookup_insert_eq.
Qed.

Lemma in_alert_events th df e :
  In e (alert_events th df) ->
  exists m row,
    threshold_of (metric e) th = Some m /\ In row df /\
    violates (metric e) m (column_of (metric e) row) = true /\
    observed_value e = column_of (metric e) row /\
    timestamp e = Time row.
Proof.
  intros He.
  assert (Hk : In e (events_of (metric e) (alert_events th df))).
  { apply filter_In. split; [exact He|]. now apply bool_decide_eq_true. }
  rewrite events_of_alert_events in Hk. unfold violations in Hk.
  destruct (threshold_of (metric e) th) as [m|]; [|contradiction].
  apply in_map_iff in Hk as (row & Heq & Hrow).
  apply filter_In in Hrow as [Hrow Hv].
  exists m, row. repeat split; trivial.
  - now rewrite <- Heq at 1.
  - now rewrite <- Heq at 1.
Qed.

(** C10: two runs that differ only in [temp_unit] end alike and, when
    they return, give the same alert message and flag; a max_temp or
    min_temp event always comes from comparing the threshold with the
    Celsius column [temperature], whose value it reports. *)
Theorem alerts_ignore_temp_unit (a : Args) (fs : FS) (u u' : string) :
  alert_outputs
    (update_forecast py clock requests_get (with_temp_unit a u) fs)
  = alert_outputs
      (update_forecast py clock requests_get (with_temp_unit a u') fs)
  /\
  (forall th df e, In e (alert_events th df) ->
     (metric e = MaxTemp ->
      exists m row, max_temp th = Some m /\ In row df /\
        (m <? temperature row)%float = true /\
        observed_value e = temperature row /\ timestamp e = Time row) /\
     (metric e = MinTemp ->
      exists m row, min_temp th = Some m /\ In row df /\
        (temperature row <? m)%float = true /\
        observed_value e = temperature row /\ timestamp e = Time row)).
Proof.
  split.
  - unfold update_forecast.
    change (fetch py clock requests_get (with_temp_unit a u))
      with (fetch py clock requests_get a).
    change (fetch py clock requests_get (with_temp_unit a u'))
      with (fetch py clock requests_get a).
    destruct (fetch py clock requests_get a) as [| |cu d df];
      try reflexivity.
    cbv zeta. simpl temp_unit. simpl alert_start_hour.
    simpl detailed_feature. simpl visual_mode. simpl thresholds.
    pose proof (feature_cards_unit u u'
                  (window d (alert_start_hour a) (clean_data df))
                  (features_of (detailed_feature a))) as Hc.
    destruct (feature_cards py u _ _), (feature_cards py u' _ _);
      try contradiction; try reflexivity.
    destruct (String.eqb (visual_mode a) "icons"); simpl;
      now destruct (summary py _ _ _).
  - intros th df e He.
    destruct (in_alert_events th df e He) as (m & row & Hm & Hr & Hv & Ho & Ht).
    split; intros Hk; rewrite Hk in *; exists m, row; simpl in *; auto.
Qed.

End CallbackFacts.

Lemma empty_window_handled_witness :
  exists out fs',
    update_forecast plain_lib sample_clock sample_feed late_args ∅
    = returned out fs' /\
    alert_events (thresholds late_args) [] = [] /\
    alert_message out = "" /\ alert_displayed out = false /\
    summary_text out = no_significant_changes /\
    body (table out) = [] /\
    fs' !! report_path (sample_clock 4%nat) "LONDON"
    = Some (csv_table (table out)).
Proof.
  apply (empty_window_handled plain_lib sample_clock sample_feed late_args ∅
           "LONDON" 19875 sample_frame).
  - vm_compute. reflexivity.
  - vm_compute. reflexivity.
  - simpl. tauto.
Defined.

(** ** The last-hour summary *)

Section SummaryFacts.

Local Open Scope float_scope.

Implicit Types (acc x v : float) (col : list float).

Lemma max_step_acc acc x :
  is_nan acc = false ->
  is_nan (max_step acc x) = false /\ (acc <=? max_step acc x) = true.
Proof.
  intros Hacc. unfold max_step.
  destruct (is_nan x) eqn:Hx; [split; [exact Hacc|now apply leb_refl]|].
  rewrite Hacc. destruct (acc <? x) eqn:Hlt.
  - split; [exact Hx|now apply ltb_leb].
  - split; [exact Hacc|now apply leb_refl].
Qed.

Lemma max_step_x acc x :
  is_nan x = false ->
  is_nan (max_step acc x) = false /\ (x <=? max_step acc x) = true.
Proof.
  intros Hx. unfold max_step. rewrite Hx.
  destruct (is_nan acc) eqn:Hacc; [split; [exact Hx|now apply leb_refl]|].
  destruct (acc <? x) eqn:Hlt.
  - split; [exact Hx|now apply leb_refl].
  - split; [exact Hacc|now apply ltb_false_leb].
Qed.

Lemma fold_max_acc col acc :
  is_nan acc = false ->
  is_nan (fold_left max_step col acc) = false /\
  (acc <=? fold_left max_step col acc) = true.
Proof.
  revert acc; induction col as [|x col IH]; intros acc Hacc; simpl.
  - split; [exact Hacc|now apply leb_refl].
  - destruct (max_step_acc acc x Hacc) as [Hn Hle].
    destruct (IH _ Hn) as [Hn' Hle']. split; [exact Hn'|].
    eapply leb_trans; eauto.
Qed.

Lemma fold_max_ge col acc x :
  In x col -> is_nan x = false ->
  is_nan (fold_left max_step col acc) = false /\
  (x <=? fold_left max_step col acc) = true.
Proof.
  revert acc; induction col as [|y col IH]; intros acc Hin Hx; simpl;
    [contradiction|].
  destruct Hin as [->|Hin]; [|now apply IH].
  destruct (max_step_x acc x Hx) as [Hn Hle].
  destruct (fold_max_acc col _ Hn) as [Hn' Hle']. split; [exact Hn'|].
  eapply leb_trans; eauto.
Qed.

Lemma fold_max_in col acc :
  fold_left max_step col acc = acc \/
  (In (fold_left max_step col acc) col /\
   is_nan (fold_left max_step col acc) = false).
Proof.
  revert acc; induction col as [|y col IH]; intros acc; simpl; [now left|].
  destruct (IH (max_step acc y)) as [Heq|[Hin Hn]].
  - rewrite Heq. unfold max_step.
    destruct (is_nan y) eqn:Hy; [now left|].
    destruct (is_nan acc); [right; now split; [left|]|].
    destruct (acc <? y); [right; now split; [left|]|now left].
  - right. split; [now right|exact Hn].
Qed.

(** [Series.max()] is [nan] exactly on a column without a valid value;
    otherwise it is a valid value of the column, and no valid value is
    above it. *)
Lemma Series_max_nan col :
  is_nan (Series_max col) = true <-> (forall x, In x col -> is_nan x = true).
Proof.
  unfold Series_max. split.
  - intros Hn x Hx. destruct (is_nan x) eqn:E; [reflexivity|].
    destruct (fold_max_ge col nan x Hx E) as [Hn' _]. congruence.
  - intros Hall. destruct (fold_max_in col nan) as [->|[Hin Hn]];
      [reflexivity|]. rewrite (Hall _ Hin) in Hn. discriminate.
Qed.

Lemma Series_max_ge col x :
  In x col -> is_nan x = false ->
  is_nan (Series_max col) = false /\ (x <=? Series_max col) = true.
Proof. apply fold_max_ge. Qed.

Lemma Series_max_in col :
  is_nan (Series_max col) = false -> In (Series_max col) col.
Proof.
  unfold Series_max. intros Hn.
  destruct (fold_max_in col nan) as [Heq|[Hin _]]; [|exact Hin].
  rewrite Heq in Hn. discriminate.
Qed.

(** The entries of [diff()]: a [nan] on top, then one difference per
    adjacent pair. *)
Lemma diff_below_lookup col above (i : nat) :
  diff_below above col !! i =
  match col !! i with
  | Some y =>
      Some (y - match i with O => above | S j => default above (col !! j) end)
  | None => None
  end.
Proof.
  revert above i; induction col as [|x col IH]; intros above i; simpl;
    [now destruct i|].
  destruct i as [|i]; simpl; [reflexivity|].
  rewrite IH. destruct (col !! i) eqn:E; [|reflexivity].
  destruct i as [|i]; simpl; [reflexivity|].
  assert (is_Some (col !! i)) as [z ->]; [|reflexivity].
  apply lookup_lt_is_Some. apply lookup_lt_Some in E. lia.
Qed.

Lemma in_abs_diff col v :
  In v (map abs (diff_values col)) ->
  is_nan v = true \/ adjacent_change col v.
Proof.
  destruct col as [|x col]; simpl; [tauto|].
  intros [<-|Hv]; [now left|]. right.
  apply in_map_iff in Hv as (d & <- & Hd).
  apply list_elem_of_In, list_elem_of_lookup in Hd as [i Hi].
  rewrite diff_below_lookup in Hi.
  destruct (col !! i) as [y|] eqn:Hy; [|discriminate].
  injection Hi as <-.
  destruct i as [|i]; simpl.
  - exists 0%nat, x, y. auto.
  - assert (is_Some (col !! i)) as [z Hz].
    { apply lookup_lt_is_Some. apply lookup_lt_Some in Hy. lia. }
    rewrite Hz. simpl. exists (S i), z, y. auto.
Qed.

Lemma abs_diff_in col v :
  adjacent_change col v -> In v (map abs (diff_values col)).
Proof.
  intros (i & x & y & Hx & Hy & ->).
  destruct col as [|x0 col]; [discriminate|]. simpl. right.
  apply in_map. apply list_elem_of_In, list_elem_of_lookup. exists i.
  rewrite diff_below_lookup. simpl in Hy. rewrite Hy.
  destruct i as [|i]; simpl in *; [congruence|]. now rewrite Hx.
Qed.

End SummaryFacts.

Section SummaryTheorem.

Context (py : Lib).

Local Open Scope float_scope.

Implicit Types (M : ChangeMetric -> float) (k : ChangeMetric).

Lemma select_greatest M k :
  greatest_first M k ->
  idxmax (change_series M) = Some (diff_label k) /\
  Series_max (map snd (change_series M)) = M k.
Proof.
  intros [Hk Hall].
  pose proof (Hall Temperature) as HT.
  pose proof (Hall WindSpeed) as HW.
  pose proof (Hall Humidity) as HH.
  unfold idxmax, Series_max, change_series. simpl. unfold max_step.
  change (is_nan nan) with true. cbv iota.
  destruct k; simpl in Hk, HT, HW, HH |- *;
    destruct (is_nan (M Temperature)) eqn:nT,
             (is_nan (M WindSpeed)) eqn:nW,
             (is_nan (M Humidity)) eqn:nH; try discriminate;
    repeat match goal with
           | H : false = false -> _ |- _ =>
               specialize (H eq_refl); destruct H as [? ?]
           | H : true = false -> _ |- _ => clear H
           | H : (?a < ?b)%nat -> _ |- _ =>
               first [ specialize (H ltac:(lia)) | clear H ]
           | H : (?a <=? ?b) = true |- _ =>
               apply leb_ltb_false in H
           end;
    repeat (progress
              (rewrite ?nT, ?nW, ?nH; cbv iota;
               change (is_nan nan) with true; cbv iota;
               repeat match goal with
                      | H : (?a <? ?b) = _ |- context [?a <? ?b] =>
                          rewrite H
                      end; cbv iota));
    repeat match goal with
           | |- context [if ?c then _ else _] => destruct c eqn:?
           end;
    try discriminate; split; reflexivity.
Qed.


Lemma greatest_first_exists M :
  (exists j, is_nan (M j) = false) -> exists k, greatest_first M k.
Proof.
  intros [j Hj].
  set (col := map snd (change_series M)).
  assert (Hin : forall i, In (M i) col) by (intros []; simpl; tauto).
  destruct (Series_max_ge col (M j) (Hin j) Hj) as [Hv _].
  assert (Hge : forall i, is_nan (M i) = false ->
                  (M i <=? Series_max col) = true).
  { intros i Hi. now apply Series_max_ge. }
  assert (Hat : exists i, Series_max col = M i).
  { pose proof (Series_max_in col Hv) as H. simpl in H.
    destruct H as [H|[H|[H|[]]]]; eauto. }
  set (v := Series_max col) in *.
  (* [top i]: metric [i] is a number and reaches the maximum *)
  set (top := fun i => negb (is_nan (M i)) && (v <=? M i)).
  assert (Hfirst : forall k, top k = true ->
            (forall i, (priority i < priority k)%nat -> top i = false) ->
            greatest_first M k).
  { intros k Hk Hbefore. unfold top in Hk.
    apply andb_true_iff in Hk as [Hn Hle]. apply negb_true_iff in Hn.
    split; [exact Hn|]. intros i Hi. split.
    - eapply leb_trans; [apply Hge, Hi|exact Hle].
    - intros Hp. specialize (Hbefore i Hp). unfold top in Hbefore.
      rewrite Hi in Hbefore. simpl in Hbefore.
      eapply ltb_leb_trans; [|exact Hle].
      now apply leb_false_ltb. }
  assert (Hsome : exists i, top i = true).
  { destruct Hat as [i Hi]. exists i. unfold top.
    rewrite <- Hi, Hv. simpl. now apply leb_refl. }
  destruct (top Temperature) eqn:HT.
  { exists Temperature. apply Hfirst; [exact HT|].
    intros []; simpl; lia. }
  destruct (top WindSpeed) eqn:HW.
  { exists WindSpeed. apply Hfirst; [exact HW|].
    intros []; simpl; trivial; lia. }
  exists Humidity. apply Hfirst.
  - destruct Hsome as [[] Hi]; congruence.
  - intros []; simpl; trivial; lia.
Qed.

Lemma greatest_first_positive M j k :
  (0 <? M j) = true -> greatest_first M k -> (0 <? M k) = true.
Proof.
  intros Hj [_ Hall].
  destruct (is_nan (M j)) eqn:Hn.
  - now rewrite (ltb_nan_r 0 (M j) Hn) in Hj.
  - eapply ltb_leb_trans; [exact Hj|]. now apply Hall.
Qed.

Lemma summary_of_selected M k :
  greatest_first M k -> (0 <? M k) = true ->
  summary_of py (change_series M) = change_message py k (M k).
Proof.
  intros Hk Hpos. unfold summary_of. cbv zeta.
  destruct (select_greatest M k Hk) as [-> ->].
  rewrite (ltb_truthy _ Hpos), Hpos. simpl andb. cbv iota.
  destruct k; reflexivity.
Qed.

Lemma summary_of_none M :
  (forall k, (0 <? M k) = false) ->
  summary_of py (change_series M) = no_significant_changes.
Proof.
  intros Hnone. unfold summary_of. cbv zeta.
  set (v := Series_max (map snd (change_series M))).
  assert (Hv : (0 <? v) = false).
  { destruct (is_nan v) eqn:Hn; [now apply ltb_nan_r|].
    pose proof (Series_max_in _ Hn) as H. fold v in H. simpl in H.
    destruct H as [H|[H|[H|[]]]]; rewrite <- H; apply Hnone. }
  rewrite Hv, andb_false_r. reflexivity.
Qed.

Lemma Time_le_trans : Transitive Time_le.
Proof. intros a b c; unfold Time_le; lia. Qed.

Lemma Time_le_total : Total Time_le.
Proof. intros a b; unfold Time_le; lia. Qed.

(** When [diff()] raises, and what it returns when it does not. *)
Lemma diff_inl (dt : Dtype) (col : list float) (e : Error) :
  diff dt col = inl e <->
  e = TypeError /\ dt = object /\ (2 <= length col)%nat.
Proof.
  unfold diff. destruct dt; [|destruct col as [|x [|y col]]]; simpl;
    split; try discriminate; try (intros (_ & ? & ?); discriminate || lia).
  - intros [= <-]. repeat split. lia.
  - now intros (-> & _ & _).
Qed.

Lemma diff_inr (dt : Dtype) (col : list float) :
  dt = float64 \/ (length col < 2)%nat ->
  diff dt col = inr (diff_values col).
Proof.
  unfold diff. intros [->|Hlen]; [reflexivity|].
  destruct dt; [reflexivity|].
  destruct col as [|x [|y col]]; simpl in *; try reflexivity; lia.
Qed.

Lemma summary_subtractable dtype now df_24h :
  subtractable dtype (last_hour_frame now df_24h) ->
  summary py dtype now df_24h
  = inr (summary_of py
           (change_series (change_maxima (last_hour_frame now df_24h)))).
Proof.
  intros Hsub. unfold summary, abs_diff. cbv zeta.
  assert (Hk : forall k,
            diff (dtype (column_id k))
              (column (reading k) (last_hour_frame now df_24h))
            = inr (diff_values
                     (column (reading k) (last_hour_frame now df_24h)))).
  { intros k. apply diff_inr. destruct Hsub as [Hf|Hlen]; [left; apply Hf|].
    right. unfold column. now rewrite length_map. }
  pose proof (Hk Temperature) as HT. pose proof (Hk WindSpeed) as HW.
  pose proof (Hk Humidity) as HH. cbn [column_id reading] in HT, HW, HH.
  rewrite HT, HW, HH. reflexivity.
Qed.

(** C6 (the code departs from it): the summary takes the differences of
    the wind-speed column even when the feed gave no wind speed at all.
    On [calm_frame], read at 10:30, the temperature goes from 20 to 35
    and the wind speed has no difference, so the claim asks for the
    temperature with a change of 15; [Series.diff()] raises [TypeError]
    on the column of [None]s and the run ends with it, after the raw
    and cleaned snapshots were written. *)
Theorem summary_raises_on_null_column :
  dtypes calm_frame col_wind_speed = object /\
  change_maxima
    (last_hour_frame (half_past_ten 3)
       (window 19875 None (clean_data calm_frame)))
    Temperature = 15%float /\
  is_nan
    (change_maxima
       (last_hour_frame (half_past_ten 3)
          (window 19875 None (clean_data calm_frame)))
       WindSpeed) = true /\
  summary plain_lib (dtypes calm_frame) (half_past_ten 3)
    (window 19875 None (clean_data calm_frame)) = inl TypeError /\
  update_forecast plain_lib half_past_ten calm_feed day_args ∅
  = raised TypeError
      (save_clean_data (half_past_ten 2) "LONDON" (clean_data calm_frame)
         (save_raw_data (half_past_ten 1) "LONDON" calm_frame ∅)).
Proof. repeat split; vm_compute; reflexivity. Qed.

Lemma summary_inl_iff (dtype : Column -> Dtype) (now : Clock.datetime)
    (df_24h : list Row24) (e : Error) :
  summary py dtype now df_24h = inl e <->
  e = TypeError /\ (exists k, dtype (column_id k) = object) /\
  (2 <= length (last_hour_frame now df_24h))%nat.
Proof.
  unfold summary, abs_diff. cbv zeta.
  set (d := last_hour_frame now df_24h).
  assert (Hlen : forall name, length (column name d) = length d).
  { intros name. unfold column. apply length_map. }
  pose proof (diff_inl (dtype col_temperature) (column temperature d)) as HT.
  pose proof (diff_inl (dtype col_wind_speed) (column wind_speed d)) as HW.
  pose proof (diff_inl (dtype col_humidity) (column humidity d)) as HH.
  rewrite !Hlen in HT, HW, HH.
  split.
  - destruct (diff (dtype col_temperature) _) as [e1|?].
    { intros [= <-]. destruct (proj1 (HT e1) eq_refl) as (-> & Ho & Hl).
      repeat split; trivial. now exists Temperature. }
    destruct (diff (dtype col_wind_speed) _) as [e1|?].
    { intros [= <-]. destruct (proj1 (HW e1) eq_refl) as (-> & Ho & Hl).
      repeat split; trivial. now exists WindSpeed. }
    destruct (diff (dtype col_humidity) _) as [e1|?]; [|discriminate].
    intros [= <-]. destruct (proj1 (HH e1) eq_refl) as (-> & Ho & Hl).
    repeat split; trivial. now exists Humidity.
  - intros (-> & [k Hk] & Hl).
    destruct (diff (dtype col_temperature) _) as [e1|?] eqn:ET.
    { now destruct (proj1 (HT e1) eq_refl) as (-> & _). }
    destruct (diff (dtype col_wind_speed) _) as [e1|?] eqn:EW.
    { now destruct (proj1 (HW e1) eq_refl) as (-> & _). }
    destruct (diff (dtype col_humidity) _) as [e1|?] eqn:EH.
    { now destruct (proj1 (HH e1) eq_refl) as (-> & _). }
    exfalso. destruct k; simpl in Hk.
    + assert (E := proj2 (HT TypeError) (conj eq_refl (conj Hk Hl))).
      congruence.
    + assert (E := proj2 (HW TypeError) (conj eq_refl (conj Hk Hl))).
      congruence.
    + assert (E := proj2 (HH TypeError) (conj eq_refl (conj Hk Hl))).
      congruence.
Qed.

(** X2: the summary raises exactly when a column it reads is a column
    of [None]s and the frame it looks at has two rows or more; the
    exception is [TypeError]. *)
Theorem summary_raises_iff (dtype : Column -> Dtype) (now : Clock.datetime)
    (df_24h : list Row24) (e : Error) :
  summary py dtype now df_24h = inl e <->
  e = TypeError /\ (exists k, dtype (column_id k) = object) /\
  (2 <= length (last_hour_frame now df_24h))%nat.
Proof. apply summary_inl_iff. Qed.

(** X1: where the summary can take its differences (every column it reads a
    column of numbers, or fewer than two rows in the last hour) it does
    what the sixth claim says.  It looks at the rows with
    [Time >= now - 1 hour], in [Time] order.  For each of temperature,
    wind speed and humidity it takes the greatest absolute difference of
    adjacent rows ([nan] when there is none).  It reports the metric
    that has the greatest of these, the first in the order temperature,
    wind speed, humidity on a tie, with that value; when no maximum is
    above zero (all zero or missing, or fewer than two rows) it reports
    no significant change. *)
Theorem summary_reports_greatest_change (dtype : Column -> Dtype)
    (now : Clock.datetime) (df_24h : list Row24) :
  subtractable dtype (last_hour_frame now df_24h) ->
  let df_last_hour := last_hour_frame now df_24h in
  let M := change_maxima df_last_hour in
  (* the frame *)
  (df_last_hour ≡ₚ
     List.filter
       (fun r : Row24 =>
          Clock.to_Timestamp now - Clock.ns_per_hour <=? Time r)%Z df_24h
   /\ StronglySorted Time_le df_last_hour) /\
  (* the maxima *)
  (forall k,
     let col := column (reading k) df_last_hour in
     (is_nan (M k) = true <->
      forall v, adjacent_change col v -> is_nan v = true) /\
     (is_nan (M k) = false -> adjacent_change col (M k)) /\
     (forall v, adjacent_change col v -> is_nan v = false ->
        (v <=? M k) = true) /\
     (M k <? 0) = false) /\
  (* the choice *)
  (forall k, greatest_first M k -> (0 <? M k) = true ->
     summary py dtype now df_24h = inr (change_message py k (M k))) /\
  ((exists j, (0 <? M j) = true) ->
   exists k, greatest_first M k /\ (0 <? M k) = true) /\
  ((forall k, (0 <? M k) = false) ->
   summary py dtype now df_24h = inr no_significant_changes) /\
  ((length df_last_hour < 2)%nat ->
   summary py dtype now df_24h = inr no_significant_changes).
Proof.
  intros Hsub d M. rewrite (summary_subtractable dtype now df_24h Hsub).
  fold d. fold M.
  split; [|split; [|split; [|split; [|split]]]].
  - split.
    + apply merge_sort_Permutation.
    + apply (@StronglySorted_merge_sort _ Time_le _ Time_le_trans
               Time_le_total).
  - intros k col. unfold M, change_maxima. fold col.
    split; [|split; [|split]].
    + rewrite Series_max_nan. split.
      * intros H v Hv. apply H, abs_diff_in, Hv.
      * intros H v Hv. destruct (in_abs_diff col v Hv); auto.
    + intros Hn. pose proof (Series_max_in _ Hn) as Hin.
      destruct (in_abs_diff col _ Hin) as [E|E]; [congruence|exact E].
    + intros v Hv Hn. apply Series_max_ge; [now apply abs_diff_in|exact Hn].
    + destruct (is_nan (Series_max (map abs (diff_values col)))) eqn:Hn;
        [now apply ltb_nan_l|].
      pose proof (Series_max_in _ Hn) as Hin.
      destruct (in_abs_diff col _ Hin) as [E|(i & x & y & _ & _ & E)];
        [congruence|rewrite E; apply abs_not_negative].
  - intros k Hk Hpos. f_equal. now apply summary_of_selected.
  - intros [j Hj].
    destruct (greatest_first_exists M) as [k Hk].
    { exists j. destruct (is_nan (M j)) eqn:Hn; [|reflexivity].
      now rewrite (ltb_nan_r 0 (M j) Hn) in Hj. }
    exists k. split; [exact Hk|]. eapply greatest_first_positive; eauto.
  - intros Hnone. f_equal. now apply summary_of_none.
  - intros Hlen. f_equal. apply summary_of_none. intros k.
    apply ltb_nan_r. unfold M, change_maxima.
    apply Series_max_nan. intros v Hv.
    destruct (in_abs_diff _ v Hv) as [E|(i & x & y & Hx & Hy & _)];
      [exact E|].
    apply lookup_lt_Some in Hy. unfold column in Hy.
    rewrite length_map in Hy. unfold d in *. lia.
Qed.


End SummaryTheorem.

Lemma summary_reports_greatest_change_witness :
  subtractable (dtypes sample_frame)
    (last_hour_frame (half_past_ten 3)
       (window 19875 None (clean_data sample_frame))) /\
  summary plain_lib (dtypes sample_frame) (half_past_ten 3)
    (window 19875 None (clean_data sample_frame))
  = inr (change_message plain_lib Temperature 15).
Proof.
  assert (Hsub : subtractable (dtypes sample_frame)
                   (last_hour_frame (half_past_ten 3)
                      (window 19875 None (clean_data sample_frame)))).
  { left. intros []; vm_compute; reflexivity. }
  split; [exact Hsub|].
  destruct (summary_reports_greatest_change plain_lib (dtypes sample_frame)
              (half_past_ten 3)
              (window 19875 None (clean_data sample_frame)) Hsub)
    as (_ & _ & Hsel & _).
  rewrite (Hsel Temperature).
  - vm_compute. reflexivity.
  - split; [vm_compute; reflexivity|]. intros j _. split.
    + destruct j; vm_compute; reflexivity.
    + destruct j; simpl; lia.
  - vm_compute. reflexivity.
Defined.

(** ** Snapshot files *)

Section SnapshotFacts.

Local Open Scope string_scope.

Lemma append_cons (a : ascii) (s t : string) :
  String a s +:+ t = String a (s +:+ t).
Proof. reflexivity. Qed.

Lemma append_length (s t : string) :
  String.length (s +:+ t) = (String.length s + String.length t)%nat.
Proof.
  induction s as [|a s IH]; [reflexivity|].
  rewrite append_cons. simpl. now rewrite IH.
Qed.

Lemma append_inj_length (s1 s2 t1 t2 : string) :
  String.length s1 = String.length s2 ->
  s1 +:+ t1 = s2 +:+ t2 -> s1 = s2 /\ t1 = t2.
Proof.
  revert s2; induction s1 as [|a s1 IH]; intros [|b s2] Hlen Heq;
    try discriminate; [now split|].
  rewrite !append_cons in Heq. injection Heq as -> Heq.
  injection Hlen as Hlen. destruct (IH _ Hlen Heq) as [-> ->]. now split.
Qed.

(** Two file names [city ++ mid ++ stamp ++ ".csv"] with stamps of one
    length are equal only for the same city and stamp. *)
Lemma file_name_inj (mid c c' ts ts' : string) :
  String.length ts = String.length ts' ->
  c +:+ mid +:+ ts +:+ ".csv" = c' +:+ mid +:+ ts' +:+ ".csv" ->
  c = c' /\ ts = ts'.
Proof.
  intros Hlen Heq.
  assert (Hc : String.length c = String.length c').
  { apply (f_equal String.length) in Heq.
    rewrite !append_length in Heq. lia. }
  destruct (append_inj_length _ _ _ _ Hc Heq) as [-> Hrest].
  split; [reflexivity|].
  apply String.app_inj in Hrest.
  now destruct (append_inj_length _ _ _ _ Hlen Hrest).
Qed.

Lemma relative_name (c rest : string) :
  starts_with_sep c = false -> starts_with_sep rest = false ->
  starts_with_sep (c +:+ rest) = false.
Proof. destruct c as [|a c]; intros Hc Hr; [exact Hr|exact Hc]. Qed.

Lemma digit_inj (a b : Z) :
  Clock.digit a = Clock.digit b -> a mod 10 = b mod 10.
Proof.
  unfold Clock.digit. intros H. apply (f_equal nat_of_ascii) in H.
  pose proof (Z.mod_pos_bound a 10 eq_refl).
  pose proof (Z.mod_pos_bound b 10 eq_refl).
  rewrite !nat_ascii_embedding in H; lia.
Qed.

Lemma digits2_inj (a b : Z) :
  0 <= a < 100 -> 0 <= b < 100 -> Clock.digits2 a = Clock.digits2 b -> a = b.
Proof.
  unfold Clock.digits2. intros Ha Hb H. injection H as H1 H0.
  apply digit_inj in H0, H1.
  pose proof (Z.div_mod a 10). pose proof (Z.div_mod b 10).
  rewrite !Z.mod_small in H1
    by (split; [apply Z.div_pos|apply Z.div_lt_upper_bound]; lia).
  lia.
Qed.

Lemma digits4_inj (a b : Z) :
  0 <= a < 10000 -> 0 <= b < 10000 ->
  Clock.digits4 a = Clock.digits4 b -> a = b.
Proof.
  unfold Clock.digits4, Clock.digits2. intros Ha Hb H.
  injection H as H3 H2 H1 H0.
  apply digit_inj in H0, H1, H2, H3.
  Z.to_euclidean_division_equations. lia.
Qed.

Lemma strftime_Ymd_stamp (d d' : Clock.datetime) :
  Clock.valid d -> Clock.valid d' ->
  Clock.strftime_Ymd d = Clock.strftime_Ymd d' <->
  stamp ReportSnapshot d = stamp ReportSnapshot d'.
Proof.
  intros Hd Hd'. unfold Clock.valid in *. unfold Clock.strftime_Ymd, stamp.
  split.
  - intros H.
    apply append_inj_length in H as [Hy H]; [|reflexivity].
    apply append_inj_length in H as [Hm H]; [|reflexivity].
    apply digits4_inj in Hy; [|lia..].
    apply digits2_inj in Hm, H; [|lia..].
    congruence.
  - intros H. injection H as -> -> ->. reflexivity.
Qed.

Lemma strftime_Ymd_HMS_stamp (d d' : Clock.datetime) :
  Clock.valid d -> Clock.valid d' ->
  Clock.strftime_Ymd_HMS d = Clock.strftime_Ymd_HMS d' <->
  stamp RawSnapshot d = stamp RawSnapshot d'.
Proof.
  intros Hd Hd'. unfold Clock.strftime_Ymd_HMS. split.
  - intros H.
    apply append_inj_length in H as [Hymd H]; [|reflexivity].
    apply (strftime_Ymd_stamp d d' Hd Hd') in Hymd.
    apply String.app_inj in H.
    apply append_inj_length in H as [Hh H]; [|reflexivity].
    apply append_inj_length in H as [Hm H]; [|reflexivity].
    unfold Clock.valid in *.
    apply digits2_inj in Hh, Hm, H; [|lia..].
    unfold stamp in *. congruence.
  - intros H.
    assert (Hymd : stamp ReportSnapshot d = stamp ReportSnapshot d').
    { unfold stamp in *. congruence. }
    apply (strftime_Ymd_stamp d d' Hd Hd') in Hymd. rewrite Hymd.
    unfold stamp in H. injection H as _ _ _ -> -> ->. reflexivity.
Qed.

Lemma os_path_join_relative (dir name : string) :
  (String.eqb dir "" || ends_with_sep dir) = false ->
  starts_with_sep name = false ->
  os_path_join dir name = dir +:+ "/" +:+ name.
Proof. unfold os_path_join. now intros -> ->. Qed.

(** The three paths, for a city name that does not start with [/]. *)
Lemma snapshot_path_relative (k : SnapshotKind) (now : Clock.datetime)
    (c : string) :
  starts_with_sep c = false ->
  snapshot_path k now c =
  match k with
  | RawSnapshot =>
      RAW_DATA_DIR +:+ "/" +:+ c +:+ "_raw_"
      +:+ Clock.strftime_Ymd_HMS now +:+ ".csv"
  | CleanSnapshot =>
      CLEAN_DATA_DIR +:+ "/" +:+ c +:+ "_cleaned_"
      +:+ Clock.strftime_Ymd_HMS now +:+ ".csv"
  | ReportSnapshot =>
      REPORT_DIR +:+ "/" +:+ c +:+ "_hourly_report_"
      +:+ Clock.strftime_Ymd now +:+ ".csv"
  end.
Proof.
  intros Hc.
  destruct k; unfold snapshot_path, raw_path, clean_path, report_path;
    cbv zeta; apply os_path_join_relative; try reflexivity;
    now apply relative_name.
Qed.

Lemma snapshot_path_key (k k' : SnapshotKind) (now now' : Clock.datetime)
    (c c' : string) :
  Clock.valid now -> Clock.valid now' ->
  starts_with_sep c = false -> starts_with_sep c' = false ->
  snapshot_path k now c = snapshot_path k' now' c' <->
  snapshot_key k now c = snapshot_key k' now' c'.
Proof.
  intros Hv Hv' Hc Hc'. rewrite !snapshot_path_relative by assumption.
  unfold snapshot_key. split.
  - intros H.
    destruct k, k'; try (exfalso; revert H; clear; discriminate).
    + apply String.app_inj, String.app_inj in H.
      apply file_name_inj in H as [-> H]; [|reflexivity].
      apply (strftime_Ymd_HMS_stamp now now' Hv Hv') in H.
      unfold stamp in *. congruence.
    + apply String.app_inj, String.app_inj in H.
      apply file_name_inj in H as [-> H]; [|reflexivity].
      apply (strftime_Ymd_HMS_stamp now now' Hv Hv') in H.
      unfold stamp in *. congruence.
    + apply String.app_inj, String.app_inj in H.
      apply file_name_inj in H as [-> H]; [|reflexivity].
      apply (strftime_Ymd_stamp now now' Hv Hv') in H. congruence.
  - intros H. injection H as -> -> H.
    destruct k'.
    + apply (strftime_Ymd_HMS_stamp now now' Hv Hv') in H. now rewrite H.
    + apply (strftime_Ymd_HMS_stamp now now' Hv Hv') in H. now rewrite H.
    + apply (strftime_Ymd_stamp now now' Hv Hv') in H. now rewrite H.
Qed.

Lemma CITIES_relative (c : string) :
  is_Some (CITIES !! c) -> starts_with_sep c = false.
Proof.
  intros [x Hx]. apply elem_of_list_to_map_2 in Hx.
  repeat (apply elem_of_cons in Hx as [Hx|Hx];
          [injection Hx as -> _; reflexivity|]).
  now apply elem_of_nil in Hx.
Qed.

Lemma to_csv_lookup (p p' : string) (x : csv) (fs : FS) :
  to_csv p' x fs !! p = if decide (p = p') then Some x else fs !! p.
Proof.
  unfold to_csv. rewrite lookup_insert. repeat case_decide; congruence.
Qed.

End SnapshotFacts.

(** C2 (as stated, refuted): two runs for London on 2024-06-01, at noon
    and at 15:30.  Both write their report to
    [weather_reports/LONDON_hourly_report_20240601.csv]; after the second
    run the file holds the second report, the first is gone. *)
Lemma report_snapshot_replaced_cex :
  match first_run, second_run with
  | returned out1 fs1, returned out2 fs2 =>
      report_path (sample_clock 4) "LONDON"
      = report_path (later_clock 4) "LONDON" /\
      fs1 !! report_path (sample_clock 4) "LONDON"
      = Some (csv_table (table out1)) /\
      fs2 !! report_path (sample_clock 4) "LONDON"
      = Some (csv_table (table out2)) /\
      table out1 <> table out2
  | _, _ => False
  end.
Proof.
  vm_compute. repeat split; discriminate.
Qed.

(** C2 (amended): a snapshot file is named by the kind of snapshot, the
    city and the time of the write, down to the second for raw and
    cleaned data and to the date for a report.  A write creates or
    replaces the file of its own key and leaves every other snapshot as
    it was; so a run never touches the snapshots of another city or
    date, and a second report for the same city on the same date
    replaces the first. *)
Theorem snapshot_write_by_key (fs : FS) (k : SnapshotKind)
    (now now' : Clock.datetime) (c c' : string) (df : list Row) (t : Table) :
  Clock.valid now -> Clock.valid now' ->
  is_Some (CITIES !! c) -> is_Some (CITIES !! c') ->
  save_raw_data now' c' df fs !! snapshot_path k now c
  = (if decide (snapshot_key k now c = snapshot_key RawSnapshot now' c')
     then Some (csv_frame df) else fs !! snapshot_path k now c) /\
  save_clean_data now' c' df fs !! snapshot_path k now c
  = (if decide (snapshot_key k now c = snapshot_key CleanSnapshot now' c')
     then Some (csv_frame df) else fs !! snapshot_path k now c) /\
  save_daily_report now' c' t fs !! snapshot_path k now c
  = (if decide (snapshot_key k now c = snapshot_key ReportSnapshot now' c')
     then Some (csv_table t) else fs !! snapshot_path k now c).
Proof.
  intros Hv Hv' Hc Hc'. apply CITIES_relative in Hc, Hc'.
  unfold save_raw_data, save_clean_data, save_daily_report. cbv zeta.
  change (raw_path now' c') with (snapshot_path RawSnapshot now' c').
  change (clean_path now' c') with (snapshot_path CleanSnapshot now' c').
  change (report_path now' c') with (snapshot_path ReportSnapshot now' c').
  rewrite !to_csv_lookup.
  repeat split;
    repeat case_decide; try reflexivity; exfalso;
    match goal with
    | H : snapshot_path _ _ _ = snapshot_path _ _ _ |- _ =>
        apply snapshot_path_key in H; auto
    | H : snapshot_key _ _ _ = snapshot_key _ _ _ |- _ =>
        apply snapshot_path_key in H; auto
    end.
Qed.

Lemma snapshot_write_by_key_witness :
  Clock.valid noon /\ Clock.valid (later_clock 4) /\
  is_Some (CITIES !! "LONDON") /\
  (save_raw_data (later_clock 4) "LONDON" sample_frame ∅
     !! snapshot_path ReportSnapshot noon "LONDON"
   = (if decide (snapshot_key ReportSnapshot noon "LONDON"
                 = snapshot_key RawSnapshot (later_clock 4) "LONDON")
      then Some (csv_frame sample_frame)
      else (∅ : FS) !! snapshot_path ReportSnapshot noon "LONDON") /\
   save_clean_data (later_clock 4) "LONDON" sample_frame ∅
     !! snapshot_path ReportSnapshot noon "LONDON"
   = (if decide (snapshot_key ReportSnapshot noon "LONDON"
                 = snapshot_key CleanSnapshot (later_clock 4) "LONDON")
      then Some (csv_frame sample_frame)
      else (∅ : FS) !! snapshot_path ReportSnapshot noon "LONDON") /\
   save_daily_report (later_clock 4) "LONDON" (mk_Table [] []) ∅
     !! snapshot_path ReportSnapshot noon "LONDON"
   = (if decide (snapshot_key ReportSnapshot noon "LONDON"
                 = snapshot_key ReportSnapshot (later_clock 4) "LONDON")
      then Some (csv_table (mk_Table [] []))
      else (∅ : FS) !! snapshot_path ReportSnapshot noon "LONDON")).
Proof.
  assert (Hn : Clock.valid noon) by (unfold Clock.valid; simpl; lia).
  assert (Hl : Clock.valid (later_clock 4)) by (unfold Clock.valid; simpl; lia).
  assert (H1 : is_Some (CITIES !! "LONDON")) by (vm_compute; eauto).
  repeat (split; [assumption|]).
  exact (snapshot_write_by_key ∅ ReportSnapshot noon (later_clock 4)
           "LONDON" "LONDON" sample_frame (mk_Table [] []) Hn Hl H1 H1).
Defined.

(** Two rows one hour apart, read at 10:30 of the same day: a
    temperature that stays at 18 gives no significant change; one that
    goes from 18 to 25, with wind and humidity unchanged, gives the
    temperature with a change of 7. *)
Example summary_steady :
  summary plain_lib (fun _ => float64)
    (Clock.mk_datetime 1970 1 1 10 30 0 0)
    [in_24h (at_hour 10 18 12 40 0); in_24h (at_hour 11 18 12 40 0)]
  = inr no_significant_changes.
Proof. vm_compute. reflexivity. Qed.

Example summary_temperature_7 :
  summary plain_lib (fun _ => float64)
    (Clock.mk_datetime 1970 1 1 10 30 0 0)
    [in_24h (at_hour 10 18 12 40 0); in_24h (at_hour 11 25 12 40 0)]
  = inr (change_message plain_lib Temperature 7).
Proof. vm_compute. reflexivity. Qed.

(** * Further properties *)

(** ** Forward fill *)

Section FillFacts.

Local Open Scope float_scope.

Implicit Types (c : Column) (col : list float) (df : list Row).

Lemma is_nan_eq_nan (x : float) : is_nan x = true -> x = nan.
Proof.
  intros H. apply is_nan_true in H.
  rewrite <- (SF2Prim_Prim2SF x), H. reflexivity.
Qed.

Lemma fill_nan (x : float) : fill nan x = x.
Proof.
  unfold fill. destruct (is_nan x) eqn:E; [|reflexivity].
  symmetry. now apply is_nan_eq_nan.
Qed.

Lemma cell_ffill_row c above r :
  cell c (ffill_row above r) = fill (cell c above) (cell c r).
Proof. now destruct c. Qed.

Lemma ffill_below_cell c df : forall above (i : nat),
  map (cell c) (ffill_below above df) !! i =
  (fun _ => fold_left fill (take (S i) (map (cell c) df)) (cell c above))
    <$> map (cell c) df !! i.
Proof.
  induction df as [|r rest IH]; intros above i; [now destruct i|].
  destruct i as [|i]; simpl.
  - now rewrite cell_ffill_row.
  - rewrite IH, cell_ffill_row. reflexivity.
Qed.

Lemma ffill_cell c df (i : nat) :
  map (cell c) (ffill df) !! i =
  (fun _ => last_valid (take (S i) (map (cell c) df)))
    <$> map (cell c) df !! i.
Proof.
  unfold last_valid. destruct df as [|r rest]; [now destruct i|].
  destruct i as [|i]; simpl.
  - now rewrite fill_nan.
  - rewrite ffill_below_cell, fill_nan. reflexivity.
Qed.

Lemma fold_fill_spec col : forall acc,
  (Forall (fun x => is_nan x = true) col /\ fold_left fill col acc = acc) \/
  (exists l1 x l2, col = l1 ++ x :: l2 /\ is_nan x = false /\
     Forall (fun x => is_nan x = true) l2 /\ fold_left fill col acc = x).
Proof.
  induction col as [|y col IH]; intros acc; simpl; [left; now split|].
  destruct (IH (fill acc y)) as [[Hall Heq]|(l1 & x & l2 & -> & Hx & Hl2 & Heq)].
  - unfold fill in Heq |- *. destruct (is_nan y) eqn:Hy.
    + left. split; [now constructor|exact Heq].
    + right. exists [], y, col. now repeat split.
  - right. exists (y :: l1), x, l2. now repeat split.
Qed.

Lemma fold_fill_valid col : forall acc,
  is_nan acc = false -> is_nan (fold_left fill col acc) = false.
Proof.
  induction col as [|y col IH]; intros acc Hacc; simpl; [exact Hacc|].
  apply IH. unfold fill. now destruct (is_nan y) eqn:Hy.
Qed.

Lemma fold_fill_take_valid col : forall acc (i j : nat),
  (i <= j)%nat ->
  is_nan (fold_left fill (take i col) acc) = false ->
  is_nan (fold_left fill (take j col) acc) = false.
Proof.
  induction col as [|y col IH]; intros acc i j Hij H.
  - now rewrite take_nil in *.
  - destruct i as [|i]; simpl in H.
    + now apply fold_fill_valid.
    + destruct j as [|j]; [lia|]. simpl. eapply IH; [|exact H]. lia.
Qed.

Lemma ffill_row_complete above r : complete r -> ffill_row above r = r.
Proof.
  intros H. destruct r as [t a b c d]. unfold ffill_row, fill; simpl.
  pose proof (H col_temperature) as Ha. pose proof (H col_wind_speed) as Hb.
  pose proof (H col_humidity) as Hc. pose proof (H col_precipitation) as Hd.
  simpl in *. now rewrite Ha, Hb, Hc, Hd.
Qed.

Lemma ffill_below_complete df : forall above,
  Forall complete df -> ffill_below above df = df.
Proof.
  induction df as [|r rest IH]; intros above H; [reflexivity|].
  apply Forall_cons in H as [Hr Hrest]. simpl.
  rewrite (ffill_row_complete above r Hr). f_equal. now apply IH.
Qed.

End FillFacts.

(** X3: forward fill, column by column.  In the cleaned frame a cell
    holds the last valid value of its column at or above its row in the
    deduplicated feed, and [nan] when there is none: nothing is filled
    from below. *)
Theorem clean_data_forward_fill (df : list Row) (c : Column) :
  let col := map (cell c) (drop_duplicates df) in
  (forall i : nat,
     map (cell c) (clean_data df) !! i
     = (fun _ => last_valid (take (S i) col)) <$> col !! i) /\
  (forall l : list float,
     (Forall (fun x => is_nan x = true) l /\ last_valid l = nan) \/
     (exists l1 x l2, l = l1 ++ x :: l2 /\ is_nan x = false /\
        Forall (fun x => is_nan x = true) l2 /\ last_valid l = x)).
Proof.
  intros col. split.
  - intros i. apply ffill_cell.
  - intros l. apply fold_fill_spec.
Qed.

(** X4: below a valid value a column of the cleaned frame has no
    missing value. *)
Theorem clean_data_valid_stays_valid (df : list Row) (c : Column)
    (i j : nat) (x y : float) :
  (i <= j)%nat ->
  map (cell c) (clean_data df) !! i = Some x ->
  map (cell c) (clean_data df) !! j = Some y ->
  is_nan x = false -> is_nan y = false.
Proof.
  unfold clean_data. rewrite !ffill_cell. intros Hij Hi Hj Hx.
  destruct (map (cell c) (drop_duplicates df) !! i); [|discriminate].
  destruct (map (cell c) (drop_duplicates df) !! j); [|discriminate].
  simpl in Hi, Hj. injection Hi as <-. injection Hj as <-.
  unfold last_valid in *. eapply fold_fill_take_valid; [|exact Hx]. lia.
Qed.

Lemma clean_data_valid_stays_valid_witness :
  map (cell col_wind_speed)
    (clean_data [at_hour 10 20 12 40 0; at_hour 11 21 nan 41 0]) !! 1%nat
  = Some 12%float /\ is_nan 12 = false.
Proof.
  split; [vm_compute; reflexivity|].
  apply (clean_data_valid_stays_valid
           [at_hour 10 20 12 40 0; at_hour 11 21 nan 41 0]
           col_wind_speed 0 1 12 12).
  - lia.
  - vm_compute. reflexivity.
  - vm_compute. reflexivity.
  - reflexivity.
Defined.

(** X5: a feed without a repeated [Time] and without a missing reading
    comes out of [clean_data] unchanged. *)
Theorem clean_data_leaves_clean_feed (df : list Row) :
  NoDup (map Time df) -> Forall complete df -> clean_data df = df.
Proof.
  intros Hnd Hc. unfold clean_data, drop_duplicates.
  rewrite drop_duplicates_from_id; [|exact Hnd|intros t _; apply not_elem_of_empty].
  destruct df as [|r rest]; [reflexivity|]. simpl. f_equal.
  apply ffill_below_complete. now apply Forall_cons in Hc as [_ Hc].
Qed.

Lemma clean_data_leaves_clean_feed_witness :
  NoDup (map Time sample_frame) /\ Forall complete sample_frame /\
  clean_data sample_frame = sample_frame.
Proof.
  assert (Hnd : NoDup (map Time sample_frame)).
  { simpl. apply NoDup_cons. split; [|apply NoDup_singleton].
    intros H. apply list_elem_of_singleton in H. vm_compute in H.
    discriminate. }
  assert (Hc : Forall complete sample_frame).
  { apply Forall_cons. split; [intros []; reflexivity|].
    apply Forall_cons. split; [intros []; reflexivity|constructor]. }
  split; [exact Hnd|]. split; [exact Hc|].
  exact (clean_data_leaves_clean_feed sample_frame Hnd Hc).
Defined.

(** X6: the cleaned frame has one row for each distinct [Time] of the
    feed. *)
Theorem clean_data_length (df : list Row) :
  length (clean_data df) = size (list_to_set (map Time df) : gset Z).
Proof.
  rewrite <- (length_map Time (clean_data df)), clean_data_Time.
  rewrite <- (size_list_to_set (C := gset Z))
    by apply drop_duplicates_from_NoDup.
  f_equal. apply set_eq. intros t. rewrite !elem_of_list_to_set. split.
  - intros Ht. eapply elem_of_sublist; [exact Ht|].
    apply (fmap_sublist Time), drop_duplicates_from_sublist.
  - rewrite !list_elem_of_In. intros Ht.
    apply drop_duplicates_from_complete; [exact Ht|apply not_elem_of_empty].
Qed.

(** ** The frame, the window and the alerts *)

Lemma zip_rows_columns (ts : list Z) : forall c1 c2 c3 c4 : list float,
  length c1 = length ts -> length c2 = length ts ->
  length c3 = length ts -> length c4 = length ts ->
  map Time (zip_rows ts c1 c2 c3 c4) = ts /\
  map temperature (zip_rows ts c1 c2 c3 c4) = c1 /\
  map wind_speed (zip_rows ts c1 c2 c3 c4) = c2 /\
  map humidity (zip_rows ts c1 c2 c3 c4) = c3 /\
  map precipitation (zip_rows ts c1 c2 c3 c4) = c4.
Proof.
  induction ts as [|t ts IH]; intros [|a c1] [|b c2] [|c c3] [|d c4];
    simpl; intros H1 H2 H3 H4; try discriminate; [now repeat split|].
  injection H1 as H1. injection H2 as H2. injection H3 as H3.
  injection H4 as H4.
  destruct (IH c1 c2 c3 c4 H1 H2 H3 H4) as (-> & -> & -> & -> & ->).
  now repeat split.
Qed.

(** X7: [pd.DataFrame] of the feed succeeds exactly when the five arrays
    have one length, and then each column of the frame is the array it
    was made from. *)
Theorem DataFrame_columns (h : Feed.Hourly) :
  match DataFrame h with
  | Some df =>
      map Time df = Feed.time h /\
      map temperature df = Feed.temperature_2m h /\
      map wind_speed df = Feed.wind_speed_10m h /\
      map humidity df = Feed.relative_humidity_2m h /\
      map precipitation df = Feed.precipitation h
  | None =>
      ~ (length (Feed.temperature_2m h) = length (Feed.time h) /\
         length (Feed.wind_speed_10m h) = length (Feed.time h) /\
         length (Feed.relative_humidity_2m h) = length (Feed.time h) /\
         length (Feed.precipitation h) = length (Feed.time h))
  end.
Proof.
  unfold DataFrame. cbv zeta.
  destruct (Nat.eqb_spec (length (Feed.temperature_2m h)) (length (Feed.time h)));
    destruct (Nat.eqb_spec (length (Feed.wind_speed_10m h)) (length (Feed.time h)));
    destruct (Nat.eqb_spec (length (Feed.relative_humidity_2m h))
                (length (Feed.time h)));
    destruct (Nat.eqb_spec (length (Feed.precipitation h)) (length (Feed.time h)));
    simpl; try tauto.
  now apply zip_rows_columns.
Qed.

Lemma filter_sublist {A} (f : A -> bool) (l : list A) :
  sublist (List.filter f l) l.
Proof.
  induction l as [|x l IH]; simpl; [constructor|].
  destruct (f x); [now apply sublist_skip|now apply sublist_cons].
Qed.

Lemma obs_in_24h (l : list Row) : map obs (map in_24h l) = l.
Proof. induction l as [|r l IH]; simpl; [reflexivity|now rewrite IH]. Qed.

Lemma window_sublist (target_date : Z) (alert_start_hour : option Z)
    (df_clean : list Row) :
  sublist (map obs (window target_date alert_start_hour df_clean)) df_clean.
Proof.
  unfold window, after_start_hour, select_date.
  assert (H : sublist (map obs (map in_24h
                (List.filter
                   (fun r => Clock.dt_date (Time r) =? target_date) df_clean)))
                df_clean).
  { rewrite obs_in_24h. apply filter_sublist. }
  destruct alert_start_hour as [h|]; [|exact H].
  etrans; [|exact H]. apply (fmap_sublist obs), filter_sublist.
Qed.

(** X8: the window holds rows of the target date only, after the start
    hour when one is given, each with its Fahrenheit reading beside the
    Celsius one; it keeps the order of the cleaned series, so the window
    of an ascending series is ascending. *)
Theorem window_rows_in_order (target_date : Z) (alert_start_hour : option Z)
    (df_clean : list Row) :
  (forall w, In w (window target_date alert_start_hour df_clean) ->
     Clock.dt_date (Time w) = target_date /\
     temperature_F w = (temperature w * 9 / 5 + 32)%float /\
     match alert_start_hour with
     | Some h => h < Clock.dt_hour (Time w)
     | None => True
     end) /\
  sublist (map obs (window target_date alert_start_hour df_clean)) df_clean /\
  (ascending df_clean ->
   ascending (map obs (window target_date alert_start_hour df_clean))).
Proof.
  split; [|split].
  - intros w Hw. apply in_window in Hw as (r & _ & -> & Hd & Hh).
    now repeat split.
  - apply window_sublist.
  - unfold ascending. intros H. apply StronglySorted_Sorted.
    eapply StronglySorted_sublist;
      [apply (fmap_sublist Time), window_sublist|].
    apply Sorted_StronglySorted; [|exact H].
    intros x y z; apply Z.le_trans.
Qed.

(** X9: every alert of a run is about a row of the cleaned series that
    lies on the target date, after the start hour when one is given, and
    reports the reading of that row. *)
Theorem alerts_from_window (th : Thresholds) (target_date : Z)
    (alert_start_hour : option Z) (df_clean : list Row) (e : AlertEvent) :
  In e (alert_events th (window target_date alert_start_hour df_clean)) ->
  (exists r, In r df_clean /\ timestamp e = Time r /\
             observed_value e = column_of (metric e) (in_24h r)) /\
  Clock.dt_date (timestamp e) = target_date /\
  match alert_start_hour with
  | Some h => h < Clock.dt_hour (timestamp e)
  | None => True
  end.
Proof.
  intros He.
  destruct (in_alert_events _ _ _ He) as (m & w & _ & Hw & _ & Ho & Ht).
  apply in_window in Hw as (r & Hr & -> & Hd & Hh).
  rewrite Ht. simpl. repeat split; trivial. exists r. now repeat split.
Qed.

Lemma alerts_from_window_witness :
  In (mk_AlertEvent MaxTemp 35 ((19875 * 24 + 11) * Clock.ns_per_hour))
    (alert_events (with_max_temp no_thresholds 30)
       (window 19875 (Some 10) sample_frame)) /\
  Clock.dt_date ((19875 * 24 + 11) * Clock.ns_per_hour) = 19875.
Proof.
  assert (H : In (mk_AlertEvent MaxTemp 35
                    ((19875 * 24 + 11) * Clock.ns_per_hour))
                (alert_events (with_max_temp no_thresholds 30)
                   (window 19875 (Some 10) sample_frame))).
  { vm_compute. left. reflexivity. }
  split; [exact H|].
  exact (proj1 (proj2 (alerts_from_window _ _ _ _ _ H))).
Defined.

(** X10: an alert is raised exactly when some row breaks a threshold
    that is set, and never on a missing reading. *)
Theorem alert_iff_violation (th : Thresholds) (df_24h : list Row24) :
  (alert_events th df_24h <> [] <->
   exists k m row, threshold_of k th = Some m /\ In row df_24h /\
                   violates k m (column_of k row) = true) /\
  (forall e, In e (alert_events th df_24h) ->
     is_nan (observed_value e) = false).
Proof.
  split; [split|].
  - intros Hne. destruct (alert_events th df_24h) as [|e l] eqn:E;
      [contradiction|].
    assert (He : In e (alert_events th df_24h)) by (rewrite E; now left).
    destruct (in_alert_events _ _ _ He) as (m & row & Hm & Hr & Hv & _).
    now exists (metric e), m, row.
  - intros (k & m & row & Hm & Hr & Hv) Hnil.
    pose proof (events_of_alert_events k th df_24h) as Hk.
    rewrite Hnil in Hk. unfold violations in Hk. rewrite Hm in Hk.
    simpl in Hk. symmetry in Hk. apply map_eq_nil in Hk.
    assert (Hin : In row (List.filter
                            (fun row => violates k m (column_of k row))
                            df_24h)).
    { apply filter_In. now split. }
    rewrite Hk in Hin. contradiction.
  - intros e He.
    destruct (in_alert_events _ _ _ He) as (m & row & _ & _ & Hv & -> & _).
    destruct (is_nan (column_of (metric e) row)) eqn:Hn; [|reflexivity].
    destruct (metric e); simpl in Hv, Hn;
      first [ rewrite (ltb_nan_r _ _ Hn) in Hv
            | rewrite (ltb_nan_l _ _ Hn) in Hv ]; discriminate.
Qed.

(** ** Runs of the callback *)

Section RunFacts.

Context (py : Lib) (clock : nat -> Clock.datetime)
        (requests_get : Feed.Request -> option Feed.Hourly).

Lemma fetch_city a cu d df :
  fetch py clock requests_get a = fetched cu d df -> is_Some (CITIES !! cu).
Proof.
  unfold fetch. destruct (city a) as [c|]; [|discriminate].
  destruct (String.eqb c ""); [discriminate|].
  destruct (CITIES !! str_upper py c) as [[lat lon]|] eqn:E; [|discriminate].
  destruct (target_date_of py _ a); [discriminate|].
  destruct (requests_get _); [|discriminate].
  destruct (DataFrame _); [|discriminate].
  intros [= <- _ _]. eauto.
Qed.

Lemma feature_card_inl u df feat e :
  feature_card py u df feat = inl e ->
  e = KeyError /\ ~ In feat known_features.
Proof.
  intros H. split.
  - unfold feature_card, value_unit in H.
    destruct (icon_map py df !! feat) eqn:Hi; [|now injection H].
    destruct (feature_labels !! feat) eqn:Hl; [|now injection H].
    unfold icon_map in Hi. apply elem_of_list_to_map_2 in Hi.
    repeat (apply elem_of_cons in Hi as [Hi|Hi];
            [injection Hi as -> _; discriminate H|]).
    now apply elem_of_nil in Hi.
  - intros Hin. destruct (feature_card_known py u df feat Hin) as [c Hc].
    congruence.
Qed.

Lemma feature_cards_inl u df feats e :
  feature_cards py u df feats = inl e ->
  e = KeyError /\ exists f, In f feats /\ ~ In f known_features.
Proof.
  induction feats as [|f feats IH]; simpl; [discriminate|].
  destruct (feature_card py u df f) as [e'|c] eqn:Hf.
  - intros [= <-]. destruct (feature_card_inl _ _ _ _ Hf) as [-> Hn].
    split; [reflexivity|]. exists f. split; [now left|exact Hn].
  - destruct (feature_cards py u df feats) as [e'|cs]; [|discriminate].
    intros [= <-]. destruct (IH eq_refl) as [-> (g & Hg & Hn)].
    split; [reflexivity|]. exists g. split; [now right|exact Hn].
Qed.

Lemma feature_cards_inr u df feats cs :
  feature_cards py u df feats = inr cs ->
  length cs = length feats /\ forall f, In f feats -> In f known_features.
Proof.
  revert cs; induction feats as [|f feats IH]; simpl; intros cs.
  - intros [= <-]. split; [reflexivity|tauto].
  - destruct (feature_card py u df f) as [e|c] eqn:Hf; [discriminate|].
    destruct (feature_cards py u df feats) as [e|cs']; [discriminate|].
    intros [= <-]. destruct (IH cs' eq_refl) as [Hlen Hall].
    split; [simpl; now rewrite Hlen|].
    intros g [<-|Hg]; [|now apply Hall].
    destruct (String.eqb_spec f "temperature") as [->|H1]; [simpl; tauto|].
    destruct (String.eqb_spec f "wind_speed") as [->|H2]; [simpl; tauto|].
    destruct (String.eqb_spec f "humidity") as [->|H3]; [simpl; tauto|].
    destruct (String.eqb_spec f "precipitation") as [->|H4]; [simpl; tauto|].
    exfalso. unfold feature_card in Hf.
    destruct (icon_map py df !! f) eqn:Hi; [|discriminate].
    unfold icon_map in Hi. apply elem_of_list_to_map_2 in Hi.
    repeat (apply elem_of_cons in Hi as [Hi|Hi];
            [injection Hi as Hi _; congruence|]).
    now apply elem_of_nil in Hi.
Qed.

Lemma features_of_unknown f :
  (exists g, In g (features_of f) /\ ~ In g known_features) ->
  ~ In f feature_choices.
Proof.
  unfold features_of, feature_choices.
  intros (g & Hg & Hn) Hf.
  destruct (String.eqb_spec f "all") as [->|Hall].
  - apply Hn. exact Hg.
  - destruct Hg as [<-|[]]. apply Hn.
    destruct Hf as [Hf|Hf]; [congruence|exact Hf].
Qed.

(** What a run that reaches the frame does next, spelled out. *)
Lemma update_forecast_fetched a fs cu d df :
  fetch py clock requests_get a = fetched cu d df ->
  let w := window d (alert_start_hour a) (clean_data df) in
  let fs2 := save_clean_data (clock 2%nat) cu (clean_data df)
               (save_raw_data (clock 1%nat) cu df fs) in
  update_forecast py clock requests_get a fs =
  match feature_cards py (temp_unit a) w (features_of (detailed_feature a)) with
  | inl e => raised e fs2
  | inr cs =>
      match summary py (dtypes df) (clock 3%nat) w with
      | inl e => raised e fs2
      | inr text =>
          returned
            {| fig := if String.eqb (visual_mode a) "icons"
                      then mk_Figure [] None None None
                      else figure py (temp_unit a) cu d
                             (features_of (detailed_feature a)) w;
               graph_style := if String.eqb (visual_mode a) "icons"
                              then "none" else "block";
               icons_div := if String.eqb (visual_mode a) "icons"
                            then cs else [];
               alert_message :=
                 match alerts py (thresholds a) w with
                 | [] => ""
                 | _ => join newline (alerts py (thresholds a) w)
                 end;
               alert_displayed :=
                 match alerts py (thresholds a) w with
                 | [] => false
                 | _ => true
                 end;
               summary_text := text;
               table := report_table py (temp_unit a) w |}
            (save_daily_report (clock 4%nat) cu
               (report_table py (temp_unit a) w) fs2)
      end
  end.
Proof.
  intros Hf w fs2. unfold update_forecast. rewrite Hf. cbv zeta.
  fold w. fold fs2.
  destruct (feature_cards py (temp_unit a) w _); [reflexivity|].
  destruct (String.eqb (visual_mode a) "icons"); simpl;
    now destruct (summary py (dtypes df) (clock 3%nat) w).
Qed.

Lemma snapshot_path_kind (k k' : SnapshotKind) (now now' : Clock.datetime)
    (c c' : string) :
  starts_with_sep c = false -> starts_with_sep c' = false ->
  snapshot_path k now c = snapshot_path k' now' c' -> k = k'.
Proof.
  intros Hc Hc'. rewrite !snapshot_path_relative by assumption.
  destruct k, k'; intros H; try reflexivity;
    exfalso; revert H; clear; discriminate.
Qed.

Lemma fetch_no_update_iff a :
  fetch py clock requests_get a = fetch_no_update <->
  city a = None \/ city a = Some ""%string.
Proof.
  unfold fetch. destruct (city a) as [c|]; [|intuition].
  destruct (String.eqb_spec c "") as [->|Hc]; [intuition|].
  split.
  - destruct (CITIES !! str_upper py c) as [[lat lon]|]; [|discriminate].
    destruct (target_date_of py _ a); [discriminate|].
    destruct (requests_get _); [|discriminate].
    destruct (DataFrame _); discriminate.
  - intros [H|H]; [discriminate|]. injection H as ->. now elim Hc.
Qed.

Lemma figure_traces u cu d feats (w : list Row24) :
  Forall (fun t => trace_x t = map (fun r : Row24 => Time r) w /\
                   length (trace_y t) = length w)
         (traces (figure py u cu d feats w)).
Proof.
  unfold figure. cbv zeta.
  destruct (mem "temperature" feats), (mem "wind_speed" feats),
    (mem "humidity" feats), (mem "precipitation" feats),
    (String.eqb u "C"); simpl;
    repeat (apply Forall_cons; split; [split; [reflexivity|]|]);
    try apply Forall_nil_2; unfold column; apply length_map.
Qed.

Lemma figure_traces_length u cu d f (w : list Row24) :
  (forall g, In g (features_of f) -> In g known_features) ->
  length (traces (figure py u cu d (features_of f) w))
  = length (features_of f).
Proof.
  unfold features_of. destruct (String.eqb f "all"); [reflexivity|].
  intros H. specialize (H f (or_introl eq_refl)).
  simpl in H. destruct H as [<-|[<-|[<-|[<-|[]]]]]; reflexivity.
Qed.

(** X11: a run that returns has written three files, none over
    another: the frame as fetched under the raw path of the second
    clock reading, the cleaned frame under the cleaned path of the
    third, and the table it returns under the report path of the fifth;
    every other file is as the run found it. *)
Theorem returned_run_writes_snapshots (a : Args) (fs : FS) (out : Outputs)
    (fs' : FS) :
  update_forecast py clock requests_get a fs = returned out fs' ->
  exists cu d df,
    fetch py clock requests_get a = fetched cu d df /\
    fs' !! raw_path (clock 1%nat) cu = Some (csv_frame df) /\
    fs' !! clean_path (clock 2%nat) cu = Some (csv_frame (clean_data df)) /\
    fs' !! report_path (clock 4%nat) cu = Some (csv_table (table out)) /\
    forall p, p <> raw_path (clock 1%nat) cu ->
              p <> clean_path (clock 2%nat) cu ->
              p <> report_path (clock 4%nat) cu -> fs' !! p = fs !! p.
Proof.
  intros H.
  destruct (fetch py clock requests_get a) as [|e|cu d df] eqn:Hf;
    try (unfold update_forecast in H; rewrite Hf in H; discriminate).
  rewrite (update_forecast_fetched a fs cu d df Hf) in H. cbv zeta in H.
  destruct (feature_cards py _ _ _); [discriminate|].
  destruct (summary py _ _ _); [discriminate|].
  injection H as <- <-.
  pose proof (CITIES_relative cu (fetch_city _ _ _ _ Hf)) as Hc.
  exists cu, d, df. split; [reflexivity|].
  unfold save_daily_report, save_clean_data, save_raw_data. cbv zeta.
  change (raw_path (clock 1%nat) cu)
    with (snapshot_path RawSnapshot (clock 1%nat) cu).
  change (clean_path (clock 2%nat) cu)
    with (snapshot_path CleanSnapshot (clock 2%nat) cu).
  change (report_path (clock 4%nat) cu)
    with (snapshot_path ReportSnapshot (clock 4%nat) cu).
  repeat split; try intros p H1 H2 H3; rewrite !to_csv_lookup;
    repeat case_decide; try reflexivity; try congruence; exfalso;
    match goal with
    | H : snapshot_path _ _ _ = snapshot_path _ _ _ |- _ =>
        apply snapshot_path_kind in H; [discriminate|assumption..]
    end.
Qed.

(** X12: how a run can fail.  Either before anything is written (an
    unknown city, a date that does not parse, a failed request or a
    reply whose arrays differ in length), the files untouched; or after
    the raw and the cleaned snapshot are written and before the report:
    with [KeyError] for a feature the page does not offer, or with
    [TypeError] from the summary on a column of [None]s.  A failing run
    never writes a report. *)
Theorem raised_run_cases (a : Args) (fs : FS) (e : Error) (fs' : FS) :
  update_forecast py clock requests_get a fs = raised e fs' ->
  (fetch py clock requests_get a = fetch_raised e /\ e <> TypeError /\
   fs' = fs) \/
  exists cu d df,
    fetch py clock requests_get a = fetched cu d df /\
    fs' = save_clean_data (clock 2%nat) cu (clean_data df)
            (save_raw_data (clock 1%nat) cu df fs) /\
    (forall now, fs' !! report_path now cu = fs !! report_path now cu) /\
    ((e = KeyError /\ ~ In (detailed_feature a) feature_choices) \/
     (e = TypeError /\ In (detailed_feature a) feature_choices /\
      (exists k, dtypes df (column_id k) = object) /\
      (2 <= length (last_hour_frame (clock 3%nat)
                      (window d (alert_start_hour a) (clean_data df))))%nat)).
Proof.
  intros H.
  destruct (fetch py clock requests_get a) as [|e'|cu d df] eqn:Hf.
  - unfold update_forecast in H; rewrite Hf in H; discriminate.
  - unfold update_forecast in H; rewrite Hf in H. injection H as <- <-.
    left. repeat split; trivial.
    revert Hf. unfold fetch. destruct (city a) as [c|]; [|discriminate].
    destruct (String.eqb c ""); [discriminate|].
    destruct (CITIES !! str_upper py c) as [[lat lon]|];
      [|intros [= <-]; discriminate].
    unfold target_date_of.
    destruct (_ && _ && _).
    + destruct (selected_date a) as [s|].
      * destruct (strptime_Ymd py s); [|intros [= <-]; discriminate].
        destruct (requests_get _); [|intros [= <-]; discriminate].
        destruct (DataFrame _); [discriminate|intros [= <-]; discriminate].
      * destruct (requests_get _); [|intros [= <-]; discriminate].
        destruct (DataFrame _); [discriminate|intros [= <-]; discriminate].
    + destruct (requests_get _); [|intros [= <-]; discriminate].
      destruct (DataFrame _); [discriminate|intros [= <-]; discriminate].
  - right. exists cu, d, df. split; [reflexivity|].
    rewrite (update_forecast_fetched a fs cu d df Hf) in H. cbv zeta in H.
    pose proof (CITIES_relative cu (fetch_city _ _ _ _ Hf)) as Hc.
    assert (Hrep : forall fs0 now,
      save_clean_data (clock 2%nat) cu (clean_data df)
        (save_raw_data (clock 1%nat) cu df fs0) !! report_path now cu
      = fs0 !! report_path now cu).
    { intros fs0 now. unfold save_clean_data, save_raw_data. cbv zeta.
      change (raw_path (clock 1%nat) cu)
        with (snapshot_path RawSnapshot (clock 1%nat) cu).
      change (clean_path (clock 2%nat) cu)
        with (snapshot_path CleanSnapshot (clock 2%nat) cu).
      change (report_path now cu)
        with (snapshot_path ReportSnapshot now cu).
      rewrite !to_csv_lookup.
      repeat case_decide; try reflexivity; exfalso;
        match goal with
        | H : snapshot_path _ _ _ = snapshot_path _ _ _ |- _ =>
            apply snapshot_path_kind in H; [discriminate|assumption..]
        end. }
    destruct (feature_cards py _ _ _) as [e'|cs] eqn:Hcards.
    + injection H as <- <-. split; [reflexivity|]. split; [apply Hrep|].
      left. apply feature_cards_inl in Hcards as [-> Hex].
      split; [reflexivity|]. now apply features_of_unknown.
    + destruct (summary py _ _ _) as [e'|text] eqn:Hs; [|discriminate].
      injection H as <- <-. split; [reflexivity|]. split; [apply Hrep|].
      right. apply summary_inl_iff in Hs as (-> & Hk & Hl).
      repeat split; trivial.
      apply feature_cards_inr in Hcards as [_ Hall].
      revert Hall. unfold features_of, feature_choices.
      destruct (String.eqb_spec (detailed_feature a) "all") as [->|_];
        [intros _; now left|].
      intros Hall. right. apply Hall. now left.
Qed.

Lemma update_forecast_no_update a fs :
  update_forecast py clock requests_get a fs = no_update ->
  fetch py clock requests_get a = fetch_no_update.
Proof.
  unfold update_forecast.
  destruct (fetch py clock requests_get a) as [|e|cu d df];
    [trivial|discriminate|].
  cbv zeta.
  destruct (feature_cards py _ _ _); [discriminate|].
  destruct (String.eqb (visual_mode a) "icons");
    now destruct (summary py _ _ _).
Qed.

(** X13: the callback answers [dash.no_update] exactly when no city is
    chosen ([None] or the empty string); with a city it either raises
    or returns its seven outputs. *)
Theorem no_update_iff_no_city (a : Args) (fs : FS) :
  update_forecast py clock requests_get a fs = no_update <->
  city a = None \/ city a = Some ""%string.
Proof.
  rewrite <- fetch_no_update_iff. split.
  - apply update_forecast_no_update.
  - intros H. unfold update_forecast. now rewrite H.
Qed.

(** X14: the days of the request.  The request never carries both
    [past_days] and [forecast_days]; a value it carries is positive and
    is the distance of the target date from today; and unless the date
    picker is among the triggers with a date chosen, the target date is
    today and the request carries neither. *)
Theorem forecast_request_days (lat lon : float) (today target_date : Z)
    (a : Args) :
  target_date_of py today a = inr target_date ->
  let r := forecast_url lat lon (today - target_date) in
  (Feed.past_days r = None \/ Feed.forecast_days r = None) /\
  (forall n, Feed.past_days r = Some n -> 0 < n /\ target_date = today - n) /\
  (forall n, Feed.forecast_days r = Some n ->
             0 < n /\ target_date = today + n) /\
  (target_date = today ->
   Feed.past_days r = None /\ Feed.forecast_days r = None) /\
  (existsb (contains "date-picker") (triggered a)
   && nonempty_str (selected_date a) = false ->
   target_date = today).
Proof.
  intros Ht r. unfold r, forecast_url. simpl.
  assert (Hlast : existsb (contains "date-picker") (triggered a)
                  && nonempty_str (selected_date a) = false ->
                  target_date = today).
  { intros Hn. unfold target_date_of in Ht.
    rewrite <- andb_assoc, Hn, andb_false_r in Ht. now injection Ht. }
  repeat apply conj; try exact Hlast;
    destruct (Z.gtb_spec (today - target_date) 0);
    try destruct (Z.ltb_spec (today - target_date) 0);
    intros; simplify_eq; try (now left); try (now right);
    try (split; reflexivity); lia.
Qed.

(** X15: what a returning run shows.  In icon mode the figure is empty,
    the graph hidden and there is one card for each feature asked for;
    otherwise there are no cards, the graph is shown and the figure has
    one trace for each feature asked for, each over the times of the
    window and with one value for each of its rows.  The alert popup is
    displayed exactly when there is an alert event, and its message is
    empty when it is not; the table has one line for each row of the
    window. *)
Theorem returned_outputs_shape (a : Args) (fs : FS) (out : Outputs)
    (fs' : FS) :
  update_forecast py clock requests_get a fs = returned out fs' ->
  exists cu d df,
    fetch py clock requests_get a = fetched cu d df /\
    let w := window d (alert_start_hour a) (clean_data df) in
    let features := features_of (detailed_feature a) in
    (if String.eqb (visual_mode a) "icons"
     then traces (fig out) = [] /\ graph_style out = "none"%string /\
          length (icons_div out) = length features
     else icons_div out = [] /\ graph_style out = "block"%string /\
          length (traces (fig out)) = length features /\
          Forall (fun t => trace_x t = map (fun r : Row24 => Time r) w /\
                           length (trace_y t) = length w)
                 (traces (fig out))) /\
    (alert_displayed out = true <-> alert_events (thresholds a) w <> []) /\
    (alert_displayed out = false -> alert_message out = ""%string) /\
    length (body (table out)) = length w.
Proof.
  intros H.
  destruct (fetch py clock requests_get a) as [|e|cu d df] eqn:Hf;
    try (unfold update_forecast in H; rewrite Hf in H; discriminate).
  rewrite (update_forecast_fetched a fs cu d df Hf) in H. cbv zeta in H.
  destruct (feature_cards py _ _ _) as [|cs] eqn:Hcards; [discriminate|].
  destruct (summary py _ _ _); [discriminate|].
  injection H as <- _.
  apply feature_cards_inr in Hcards as [Hlen Hall].
  exists cu, d, df. split; [reflexivity|]. cbv zeta.
  cbn [fig graph_style icons_div alert_message alert_displayed table].
  repeat apply conj.
  - destruct (String.eqb (visual_mode a) "icons").
    + repeat split; trivial.
    + repeat apply conj; trivial.
      * now apply figure_traces_length.
      * apply figure_traces.
  - unfold alerts. destruct (alert_events _ _); simpl; congruence.
  - unfold alerts. destruct (alert_events _ _); simpl; congruence.
  - unfold alerts. destruct (alert_events _ _); simpl; congruence.
  - unfold report_table. destruct (String.eqb (temp_unit a) "C"); simpl;
      apply length_map.
Qed.

(** X16: the Fahrenheit readings.  The column [temperature_F] the
    callback adds to the window is never read again, yet what the page
    shows in Fahrenheit agrees with it: every row of the window carries
    [temperature * 9/5 + 32] in it, and with a unit other than [C] the
    temperature column of the table and the temperature trace of the
    figure hold exactly that column.  With the unit [C] they hold the
    Celsius readings. *)
Theorem fahrenheit_outputs (u cu : string) (d target_date : Z)
    (h : option Z) (df_clean : list Row) :
  let w := window target_date h df_clean in
  Forall (fun r : Row24 =>
            temperature_F r = (temperature r * 9 / 5 + 32)%float) w /\
  map cell_temp (body (report_table py u w))
  = (if String.eqb u "C" then column temperature w
     else map temperature_F w) /\
  forall feats, mem "temperature" feats = true ->
    exists t rest,
      traces (figure py u cu d feats w) = t :: rest /\
      trace_y t = (if String.eqb u "C" then column temperature w
                   else map temperature_F w).
Proof.
  intros w.
  assert (HF : Forall (fun r : Row24 =>
            temperature_F r = (temperature r * 9 / 5 + 32)%float) w).
  { apply Forall_forall. intros r Hr.
    unfold w in Hr. apply list_elem_of_In, in_window in Hr.
    destruct Hr as (r0 & _ & -> & _). reflexivity. }
  assert (HM : map (fun r : Row24 => (temperature r * 9 / 5 + 32)%float) w
               = map temperature_F w).
  { clear -HF. induction HF as [|r l Hr _ IH]; simpl; [reflexivity|].
    now rewrite Hr, IH. }
  split; [exact HF|]. split.
  - unfold report_table. destruct (String.eqb u "C"); simpl;
      rewrite map_map; simpl; [reflexivity|exact HM].
  - intros feats Hm. unfold figure. cbv zeta. rewrite Hm. simpl.
    destruct (mem "wind_speed" feats), (mem "humidity" feats),
      (mem "precipitation" feats); simpl;
      eexists; eexists; (split; [reflexivity|]); simpl;
      destruct (String.eqb u "C"); trivial.
Qed.

Lemma window_times_NoDup (target_date : Z) (h : option Z) (df : list Row) :
  NoDup (map Time (map obs (window target_date h (clean_data df)))).
Proof.
  apply (sublist_NoDup _ (map Time (clean_data df))).
  - rewrite clean_data_Time. apply drop_duplicates_from_NoDup.
  - apply (fmap_sublist Time), window_sublist.
Qed.

Lemma recent_sublist (now : Clock.datetime) (df_24h : list Row24) :
  sublist (recent now df_24h) df_24h.
Proof. apply filter_sublist. Qed.

Lemma filter_Permutation {A} (f : A -> bool) (l l' : list A) :
  l ≡ₚ l' -> List.filter f l ≡ₚ List.filter f l'.
Proof.
  induction 1 as [|x l l' _ IH|x y l|l l' l'' _ IH1 _ IH2]; simpl.
  - reflexivity.
  - destruct (f x); [now constructor|exact IH].
  - destruct (f x), (f y); try reflexivity. apply perm_swap.
  - now transitivity (List.filter f l').
Qed.

Lemma recent_recent (now : Clock.datetime) (df_24h : list Row24) :
  recent now (recent now df_24h) = recent now df_24h.
Proof.
  unfold recent. induction df_24h as [|r w IH]; simpl; trivial.
  destruct (_ <=? Time r) eqn:E; simpl; rewrite ?E; now rewrite IH.
Qed.

Lemma NoDup_Time_eq (l : list Row24) (x y : Row24) :
  NoDup (map Time (map obs l)) -> x ∈ l -> y ∈ l -> Time x = Time y -> x = y.
Proof.
  induction l as [|z l IH]; simpl; intros Hnd Hx Hy Ht.
  - now apply elem_of_nil in Hx.
  - apply NoDup_cons in Hnd as [Hz Hnd].
    assert (Hin : forall w : Row24, w ∈ l -> Time w ∈ map Time (map obs l)).
    { intros w Hw. rewrite map_map. apply list_elem_of_In, in_map_iff.
      exists w. split; [reflexivity|]. now apply list_elem_of_In. }
    apply elem_of_cons in Hx as [->|Hx]; apply elem_of_cons in Hy as [->|Hy].
    + reflexivity.
    + elim Hz. rewrite Ht. now apply Hin.
    + elim Hz. rewrite <- Ht. now apply Hin.
    + now apply IH.
Qed.

(** X17: the rows the summary reads.  It reads only the rows of the last
    hour ([Time >= now - 1 hour]), and on the window of a cleaned frame,
    where no two rows share a [Time], the frame it takes the differences
    of is the one ascending arrangement of those rows: whichever sort
    [sort_values] runs, stable or not, it ends with the same frame, and
    two windows with the same rows in the last hour get the same
    summary. *)
Theorem summary_frame_unique (dtype : Column -> Dtype) (now : Clock.datetime)
    (target_date : Z) (h : option Z) (df : list Row) (l : list Row24) :
  let w := window target_date h (clean_data df) in
  l ≡ₚ recent now w -> StronglySorted Time_le l ->
  l = last_hour_frame now w /\
  summary py dtype now l = summary py dtype now w.
Proof.
  intros w Hp Hs.
  assert (Hl : l = last_hour_frame now w).
  { unfold last_hour_frame. cbv zeta. fold (recent now w).
    apply (StronglySorted_unique_strong Time_le); trivial.
    - intros x y Hx Hy Hxy Hyx.
      apply (NoDup_Time_eq w).
      + apply window_times_NoDup.
      + rewrite Hp in Hx. unfold recent in Hx.
        apply list_elem_of_In, filter_In in Hx as [Hx _].
        now apply list_elem_of_In.
      + rewrite merge_sort_Permutation in Hy. unfold recent in Hy.
        apply list_elem_of_In, filter_In in Hy as [Hy _].
        now apply list_elem_of_In.
      + unfold Time_le in *. lia.
    - apply (@StronglySorted_merge_sort _ Time_le _ Time_le_trans
               Time_le_total).
    - now rewrite merge_sort_Permutation. }
  split; [exact Hl|].
  assert (Hrec : last_hour_frame now l = last_hour_frame now w).
  { unfold last_hour_frame. cbv zeta. fold (recent now l) (recent now w).
    apply (StronglySorted_unique_strong Time_le).
    - intros x y Hx Hy Hxy Hyx.
      apply (NoDup_Time_eq w).
      + apply window_times_NoDup.
      + rewrite merge_sort_Permutation in Hx.
        apply elem_of_sublist with (l2 := l) in Hx;
          [|apply recent_sublist].
        rewrite Hp in Hx.
        now apply elem_of_sublist with (l2 := w) in Hx;
          [|apply recent_sublist].
      + rewrite merge_sort_Permutation in Hy.
        now apply elem_of_sublist with (l2 := w) in Hy;
          [|apply recent_sublist].
      + unfold Time_le in *. lia.
    - apply (@StronglySorted_merge_sort _ Time_le _ Time_le_trans
               Time_le_total).
    - apply (@StronglySorted_merge_sort _ Time_le _ Time_le_trans
               Time_le_total).
    - rewrite !merge_sort_Permutation.
      rewrite <- (recent_recent now w).
      now apply filter_Permutation. }
  unfold summary. cbv zeta. now rewrite Hrec.
Qed.

Lemma fetch_raised_KeyError a :
  fetch py clock requests_get a = fetch_raised KeyError ->
  exists c, city a = Some c /\ CITIES !! str_upper py c = None.
Proof.
  unfold fetch. destruct (city a) as [c|]; [|discriminate].
  destruct (String.eqb c ""); [discriminate|].
  destruct (CITIES !! str_upper py c) as [[lat lon]|] eqn:Hc;
    [|intros _; exists c; split; [reflexivity|exact Hc]].
  unfold target_date_of.
  destruct (_ && _ && _).
  - destruct (selected_date a) as [s|].
    + destruct (strptime_Ymd py s); [|discriminate].
      destruct (requests_get _); [|discriminate].
      destruct (DataFrame _); discriminate.
    + destruct (requests_get _); [|discriminate].
      destruct (DataFrame _); discriminate.
  - destruct (requests_get _); [|discriminate].
    destruct (DataFrame _); discriminate.
Qed.

(** X18: the forecast after a reset.  The values [reset_inputs] hands to
    the page are values the forecast callback accepts: with them (and
    [upper] leaving the upper-case city name as it is) the callback
    answers, it never fails with [KeyError] on the city or the feature,
    and what it returns has no alert, the table in Celsius and, in icon
    mode, the four cards. *)
Theorem reset_then_forecast (n : option Z) (r : ResetValues) (a : Args)
    (fs : FS) :
  reset_inputs n = Some r ->
  str_upper py (reset_city r) = reset_city r ->
  let o := update_forecast py clock requests_get (after_reset r a) fs in
  o <> no_update /\
  (forall fs', o <> raised KeyError fs') /\
  (forall out fs', o = returned out fs' ->
     alert_displayed out = false /\ alert_message out = ""%string /\
     columns (table out)
     = ["Time"; "Temp (°C)"; "Wind (km/h)"; "Humidity (%)"; "Precip (mm)"]
         %string /\
     (visual_mode a = "icons"%string -> length (icons_div out) = 4%nat)).
Proof.
  intros Hr Hup o.
  assert (Er : r = {| reset_city := "NEW YORK"; reset_feature := "all";
                      reset_unit := "C";
                      reset_thresholds :=
                        mk_Thresholds None None None None None;
                      reset_start_hour := None |}).
  { unfold reset_inputs in Hr. destruct n as [n|]; [|discriminate].
    destruct (n =? 0); [discriminate|]. now injection Hr. }
  subst r. cbn [reset_city] in Hup.
  set (a' := after_reset _ a) in *.
  split; [|split].
  - unfold o. intros H. apply update_forecast_no_update in H.
    apply fetch_no_update_iff in H as [H|H]; discriminate H.
  - intros fs' H. unfold o in H.
    destruct (fetch py clock requests_get a') as [|e|cu d df] eqn:Hf.
    + unfold update_forecast in H. rewrite Hf in H. discriminate.
    + unfold update_forecast in H. rewrite Hf in H. injection H as -> _.
      apply fetch_raised_KeyError in Hf as (c & Hc & Hnone).
      injection Hc as <-. rewrite Hup in Hnone. vm_compute in Hnone.
      discriminate.
    + rewrite (update_forecast_fetched a' fs cu d df Hf) in H. cbv zeta in H.
      destruct (feature_cards py _ _ _) as [e|cs] eqn:Hcards.
      * apply feature_cards_inl in Hcards as [_ (g & Hg & Hn)].
        apply Hn. exact Hg.
      * destruct (summary py _ _ _) as [e|text] eqn:Hs; [|discriminate].
        apply summary_inl_iff in Hs as [-> _]. discriminate.
  - intros out fs' H. unfold o in H.
    destruct (fetch py clock requests_get a') as [|e|cu d df] eqn:Hf;
      try (unfold update_forecast in H; rewrite Hf in H; discriminate).
    rewrite (update_forecast_fetched a' fs cu d df Hf) in H. cbv zeta in H.
    destruct (feature_cards py _ _ _) as [e|cs] eqn:Hcards; [discriminate|].
    destruct (summary py _ _ _); [discriminate|].
    assert (Hal : alerts py (thresholds a')
                    (window d (alert_start_hour a') (clean_data df)) = []).
    { reflexivity. }
    rewrite Hal in H. injection H as <- _.
    cbn [alert_displayed alert_message table icons_div].
    repeat apply conj; trivial.
    change (visual_mode a') with (visual_mode a).
    intros ->. cbn [String.eqb Ascii.eqb Bool.eqb].
    apply feature_cards_inr in Hcards as [-> _]. reflexivity.
Qed.

End RunFacts.

(** ** The other callbacks *)

(** X19: the calendar modal.  The answer of [toggle_calendar_modal] does
    not depend on the click count, and asking again with the answer as
    the state gives the same answer.  The modal changes from closed to
    open only when the open button comes first among the triggers, and
    from open to closed only when nothing triggered the call or the
    date picker comes first with a date chosen. *)
Theorem toggle_calendar_modal_cases (triggered : list string)
    (open_clicks : option Z) (selected_date : option string)
    (is_open : bool) :
  let r := toggle_calendar_modal triggered open_clicks selected_date is_open in
  (forall open_clicks',
     toggle_calendar_modal triggered open_clicks' selected_date is_open = r) /\
  toggle_calendar_modal triggered open_clicks selected_date r = r /\
  (is_open = false -> r = true ->
   exists p rest, triggered = p :: rest /\
                  split_head "." p = "open-calendar-btn"%string) /\
  (is_open = true -> r = false ->
   triggered = [] \/
   exists p rest, triggered = p :: rest /\
                  split_head "." p = "date-picker"%string /\
                  nonempty_str selected_date = true).
Proof.
  unfold toggle_calendar_modal. destruct triggered as [|p rest]; cbv zeta.
  - repeat split; trivial; try discriminate. now left.
  - destruct (String.eqb_spec (split_head "." p) "open-calendar-btn")
      as [Ho|Ho].
    + repeat split; trivial; try discriminate. intros _ _. eauto.
    + destruct (String.eqb_spec (split_head "." p) "date-picker") as [Hd|Hd];
        destruct (nonempty_str selected_date) eqn:Hs; simpl;
        repeat split; trivial; try congruence.
      intros _ _. right. eauto.
Qed.

(** X20: the reset callback answers [dash.no_update] exactly when the
    button was never clicked ([None] or a count of zero); otherwise it
    hands back New York, all features, Celsius, no threshold and no
    start hour, whatever the count. *)
Theorem reset_inputs_cases (n : option Z) :
  (reset_inputs n = None <-> n = None \/ n = Some 0) /\
  (forall m r r', reset_inputs n = Some r -> reset_inputs m = Some r' ->
                  r = r') /\
  (forall r, reset_inputs n = Some r ->
     is_Some (CITIES !! reset_city r) /\
     In (reset_feature r) feature_choices /\
     forall df_24h, alert_events (reset_thresholds r) df_24h = []).
Proof.
  unfold reset_inputs. split; [|split].
  - destruct n as [n|]; [|intuition].
    destruct (Z.eqb_spec n 0) as [->|Hn]; [intuition|].
    split; [discriminate|]. intros [H|H]; [discriminate|].
    injection H as ->. now elim Hn.
  - intros m r r'. destruct n as [n|]; [|discriminate].
    destruct (n =? 0); [discriminate|]. intros [= <-].
    destruct m as [m|]; [|discriminate].
    destruct (m =? 0); [discriminate|]. now intros [= <-].
  - intros r. destruct n as [n|]; [|discriminate].
    destruct (n =? 0); [discriminate|]. intros [= <-]. simpl.
    repeat split; [vm_compute; eauto|tauto].
Qed.

(** ** The properties of a run, on the sample requests *)

Lemma sample_fetch (a : Args) :
  city a = Some "LONDON"%string -> selected_date a = None ->
  fetch plain_lib sample_clock sample_feed a
  = fetched "LONDON" 19875 sample_frame.
Proof.
  intros Hc Hd. unfold fetch, target_date_of. rewrite Hc, Hd.
  rewrite andb_false_r. vm_compute. reflexivity.
Qed.

Lemma first_run_returned : exists out fs', first_run = returned out fs'.
Proof.
  unfold first_run.
  rewrite (update_forecast_fetched plain_lib sample_clock sample_feed
             day_args ∅ "LONDON" 19875 sample_frame
             (sample_fetch day_args eq_refl eq_refl)).
  cbv zeta.
  destruct (feature_cards plain_lib _ _ _) as [e|cs] eqn:Hc;
    [vm_compute in Hc; discriminate Hc|].
  destruct (summary plain_lib _ _ _) as [e|text] eqn:Hs;
    [vm_compute in Hs; discriminate Hs|].
  eauto.
Qed.

Lemma pressure_run_raised :
  exists fs',
    update_forecast plain_lib sample_clock sample_feed pressure_args ∅
    = raised KeyError fs'.
Proof.
  rewrite (update_forecast_fetched plain_lib sample_clock sample_feed
             pressure_args ∅ "LONDON" 19875 sample_frame
             (sample_fetch pressure_args eq_refl eq_refl)).
  cbv zeta.
  destruct (feature_cards plain_lib _ _ _) as [e|cs] eqn:Hc;
    [|vm_compute in Hc; discriminate Hc].
  vm_compute in Hc. injection Hc as <-. eauto.
Qed.

Lemma returned_run_writes_snapshots_witness :
  exists out fs',
    first_run = returned out fs' /\
    fs' !! raw_path (sample_clock 1) "LONDON" = Some (csv_frame sample_frame) /\
    fs' !! clean_path (sample_clock 2) "LONDON"
    = Some (csv_frame (clean_data sample_frame)) /\
    fs' !! report_path (sample_clock 4) "LONDON"
    = Some (csv_table (table out)).
Proof.
  destruct first_run_returned as (out & fs' & E).
  exists out, fs'. split; [exact E|].
  destruct (returned_run_writes_snapshots plain_lib sample_clock sample_feed
              day_args ∅ out fs' E)
    as (cu & d & df & Hf & Hraw & Hclean & Hrep & _).
  rewrite (sample_fetch day_args eq_refl eq_refl) in Hf.
  injection Hf as <- <- <-.
  repeat split; assumption.
Defined.

Lemma raised_run_cases_witness :
  exists fs',
    update_forecast plain_lib sample_clock sample_feed pressure_args ∅
    = raised KeyError fs' /\
    ~ In (detailed_feature pressure_args) feature_choices.
Proof.
  destruct pressure_run_raised as (fs' & E).
  exists fs'. split; [exact E|].
  destruct (raised_run_cases plain_lib sample_clock sample_feed
              pressure_args ∅ KeyError fs' E)
    as [(Hf & _)|(cu & d & df & _ & _ & _ & [[_ Hn]|[Hx _]])].
  - rewrite (sample_fetch pressure_args eq_refl eq_refl) in Hf.
    discriminate Hf.
  - exact Hn.
  - discriminate Hx.
Defined.

Lemma forecast_request_days_witness :
  target_date_of plain_lib 19875 day_args = inr 19875 /\
  Feed.past_days (forecast_url 51.5072 (-0.1276) (19875 - 19875)) = None /\
  Feed.forecast_days (forecast_url 51.5072 (-0.1276) (19875 - 19875)) = None.
Proof.
  split; [reflexivity|].
  destruct (forecast_request_days plain_lib 51.5072 (-0.1276) 19875 19875
              day_args eq_refl) as (_ & _ & _ & H & _).
  apply H. reflexivity.
Defined.

Lemma returned_outputs_shape_witness :
  exists out,
    outputs_of first_run = Some out /\
    icons_div out = [] /\ length (traces (fig out)) = 4%nat /\
    (alert_displayed out = true <->
     alert_events (thresholds day_args)
       (window 19875 None (clean_data sample_frame)) <> []).
Proof.
  destruct first_run_returned as (out & fs' & E).
  exists out. split; [now rewrite E|].
  destruct (returned_outputs_shape plain_lib sample_clock sample_feed
              day_args ∅ out fs' E)
    as (cu & d & df & Hf & Hmode & Hal & _).
  rewrite (sample_fetch day_args eq_refl eq_refl) in Hf.
  injection Hf as <- <- <-.
  destruct Hmode as (Hicons & _ & Hlen & _).
  repeat split; try assumption; apply Hal.
Defined.

Lemma summary_frame_unique_witness :
  map in_24h sample_frame
  ≡ₚ recent (half_past_ten 3) (window 19875 None (clean_data sample_frame)) /\
  StronglySorted Time_le (map in_24h sample_frame) /\
  map in_24h sample_frame
  = last_hour_frame (half_past_ten 3)
      (window 19875 None (clean_data sample_frame)).
Proof.
  assert (Hp : map in_24h sample_frame
               ≡ₚ recent (half_past_ten 3)
                    (window 19875 None (clean_data sample_frame))).
  { vm_compute. reflexivity. }
  assert (Hs : StronglySorted Time_le (map in_24h sample_frame)).
  { repeat constructor. unfold Time_le. vm_compute. discriminate. }
  split; [exact Hp|]. split; [exact Hs|].
  apply (summary_frame_unique plain_lib (dtypes sample_frame)
           (half_past_ten 3) 19875 None sample_frame
           (map in_24h sample_frame) Hp Hs).
Defined.

Lemma reset_then_forecast_witness :
  reset_inputs (Some 1)
  = Some (mk_ResetValues "NEW YORK" "all" "C"
            (mk_Thresholds None None None None None) None) /\
  update_forecast plain_lib sample_clock sample_feed
    (after_reset (mk_ResetValues "NEW YORK" "all" "C"
                    (mk_Thresholds None None None None None) None)
       day_args) ∅ <> no_update.
Proof.
  split; [reflexivity|].
  apply (reset_then_forecast plain_lib sample_clock sample_feed (Some 1)
           (mk_ResetValues "NEW YORK" "all" "C"
              (mk_Thresholds None None None None None) None)
           day_args ∅ eq_refl eq_refl).
Defined.
